(** * ImageToPDFTool: the image-to-PDF conversion component

    A shallow embedding of [src/components/tools/image-to-pdf/ImageToPDFTool.tsx].
    The React component is a state machine: every [useState] hook is a field of
    [State], the [useRef] cancellation flag is one more (shared) field, every
    handler is a function on [State], and the asynchronous engine calls
    ([imagesToPDF], [imagesToPDFBatch]) are kept in a list of calls in flight
    whose progress callbacks and settlements are events of the system.

    The child components ([FileUploader], [Button], [ProcessingProgress],
    [DownloadButton]) and the engine itself live outside this file of the
    repository: a disabled or unrendered control is taken not to fire its
    handler, and an engine call may report progress any number of times
    before it resolves or rejects with any output. *)

From Stdlib Require Import Ascii QArith Qround.
From Equations Require Import Equations.
From stdpp Require Import base list strings pretty.

Local Open Scope string_scope.
Local Open Scope Z_scope.

(** ** The JavaScript primitives the component relies on *)

Module JS.

(** A JavaScript number that is an integer or [NaN] ([None]).  The numbers
    met here are list lengths and what [parseInt] returns; they are far
    below 2^53, where doubles are exact on integers. *)
Definition number := option Z.

(** [StrWhiteSpaceChar] restricted to the characters of an ASCII string. *)
Definition isWhiteSpace (c : ascii) : bool :=
  let n := nat_of_ascii c in
  ((9 <=? n) && (n <=? 13))%nat || (n =? 32)%nat.

Fixpoint trimStart (s : string) : string :=
  match s with
  | String c s' => if isWhiteSpace c then trimStart s' else s
  | EmptyString => EmptyString
  end.

(** Value of a character as a digit in a radix up to 36. *)
Definition digitValue (c : ascii) : option Z :=
  let n := Z.of_nat (nat_of_ascii c) in
  if (48 <=? n) && (n <=? 57) then Some (n - 48)
  else if (97 <=? n) && (n <=? 122) then Some (n - 87)
  else if (65 <=? n) && (n <=? 90) then Some (n - 55)
  else None.

(** The longest prefix of radix-[R] digits, as an integer; [acc] is [None]
    until a first digit has been read. *)
Fixpoint parseDigits (R : Z) (acc : option Z) (s : string) : option Z :=
  match s with
  | String c s' =>
      match digitValue c with
      | Some d =>
          if d <? R then parseDigits R (Some (default 0 acc * R + d)) s'
          else acc
      | None => acc
      end
  | EmptyString => acc
  end.

(** [parseInt(string)] with the radix left undefined: leading white space is
    skipped, a sign is read, a [0x]/[0X] prefix selects radix 16, and the
    longest digit prefix is the value; no digit at all is [NaN]. *)
Definition parseInt (s : string) : number :=
  let inputString := trimStart s in
  let '(sign, unsigned) :=
    match inputString with
    | String "-" r => (-1, r)
    | String "+" r => (1, r)
    | _ => (1, inputString)
    end in
  let '(R, digits) :=
    match unsigned with
    | String "0" (String "x" r) => (16, r)
    | String "0" (String "X" r) => (16, r)
    | _ => (10, unsigned)
    end in
  match parseDigits R None digits with
  | Some mathInt => Some (sign * mathInt)
  | None => None
  end.

(** [x || d] on numbers: [NaN] and zero are falsy. *)
Definition numOr (x : number) (d : Z) : Z :=
  match x with
  | Some n => if n =? 0 then d else n
  | None => d
  end.

(** [s || d] on a possibly undefined string: the empty string is falsy. *)
Definition strOr (s : option string) (d : string) : string :=
  match s with
  | Some (String _ _ as m) => m
  | _ => d
  end.

(** Truthiness of a string or [null]. *)
Definition truthy (s : option string) : bool :=
  match s with
  | Some (String _ _) => true
  | _ => false
  end.

(** [Math.ceil(a / b)] on integers, with the quotient taken exactly. *)
Definition ceilDiv (a b : Z) : Z := Qceiling (inject_Z a / inject_Z b).

(** Template interpolation of a non-negative integer. *)
Definition showNat (n : nat) : string := pretty n.

(** The body [[^/.]+$] of the extension pattern: one or more characters up
    to the end of the string, none of them a slash or a dot. *)
Fixpoint extChars (s : string) : bool :=
  match s with
  | String c s' => negb (Ascii.eqb c "/") && negb (Ascii.eqb c ".") && extChars s'
  | EmptyString => true
  end.

Definition extBody (s : string) : bool :=
  match s with
  | String _ _ => extChars s
  | EmptyString => false
  end.

(** [name.replace(/\.[^/.]+$/, '')]: the search tries each start position
    from the left; the first position holding a dot followed by an
    extension body is the match, and it is replaced by nothing. *)
Fixpoint stripExtension (s : string) : string :=
  match s with
  | String c s' =>
      if Ascii.eqb c "." && extBody s' then EmptyString
      else String c (stripExtension s')
  | EmptyString => EmptyString
  end.

End JS.

(** ** The conversion engine, as far as the component sees it *)

(** A browser [File]: the component reads its name, size and MIME type. *)
Record File := { name : string; type : string; size : Z }.

Definition Blob := list Byte.byte.

Inductive PageSizeType := A4 | LETTER | LEGAL | A3 | A5 | FIT.
Inductive Orientation := portrait | landscape | auto.

(** [Partial<ImageToPDFOptions>] as [handleConvert] builds it. *)
Record ImageToPDFOptions := {
  optPageSize : PageSizeType;
  optOrientation : Orientation;
  optMargin : Z;
  optCenterImage : bool;
  optScaleToFit : bool;
  optSvgScale : Z
}.

Record BatchExportResult := { zipBlob : Blob; pdfCount : nat; imageCount : nat }.

Record ProcessError := { message : string }.

(** [ProcessOutput]: what an engine promise resolves to. *)
Record ProcessOutput (R : Type) := {
  success : bool;
  outResult : option R;
  outError : option ProcessError
}.
Arguments success {R} _.
Arguments outResult {R} _.
Arguments outError {R} _.

(** What a rejected engine promise carries into the [catch] clause. *)
Inductive Thrown :=
| ThrownError (msg : string)   (* [err instanceof Error] *)
| ThrownOther.

Inductive EngineResult (R : Type) :=
| Resolved (output : ProcessOutput R)
| Rejected (err : Thrown).
Arguments Resolved {R} _.
Arguments Rejected {R} _.

(** The two engine entry points, as calls the component issues. *)
Inductive EngineCall :=
| imagesToPDFBatch (fs : list File) (groupSize : Z) (options : ImageToPDFOptions)
| imagesToPDF (fs : list File) (options : ImageToPDFOptions).

Module Engine.

(** Modelled from the spec: [imagesToPDFBatch] is imported from
    [@/lib/pdf/processors/image-to-pdf], which is not part of the sources at
    hand.  Step 2 of the batch orchestrator: the files are partitioned into
    consecutive groups of [groupSize], the last one possibly smaller. *)
Equations? partition {A} (groupSize : positive) (l : list A) : list (list A)
  by wf (length l) lt :=
  partition groupSize [] := [];
  partition groupSize (x :: l) :=
    take (Pos.to_nat groupSize) (x :: l)
      :: partition groupSize (drop (Pos.to_nat groupSize) (x :: l)).
Proof. rewrite length_drop. simpl. lia. Qed.

Inductive ValidationError := EmptyInput | GroupSizeBelowOne.

(** Modelled from the spec: step 1 (validation: at least one file,
    [groupSize >= 1]) followed by the partition; one document is produced
    per group. *)
Definition groups (fs : list File) (groupSize : Z) : ValidationError + list (list File) :=
  match fs, groupSize with
  | [], _ => inl EmptyInput
  | _, Zpos g => inr (partition g fs)
  | _, _ => inl GroupSizeBelowOne
  end.

(** Modelled from the spec: the counts a batch export reports, [pdfCount]
    documents made of [imageCount] source images. *)
Definition counts (gs : list (list File)) : nat * nat :=
  (length gs, sum_list (length <$> gs)).

End Engine.

(** ** The component state *)

Module ProcessingStatus.
(** The values of [ProcessingStatus] that the component uses. *)
Inductive t := idle | uploading | processing | complete | error.

Definition eqb (a b : t) : bool :=
  match a, b with
  | idle, idle | uploading, uploading | processing, processing
  | complete, complete | error, error => true
  | _, _ => false
  end.
End ProcessingStatus.

(** An entry of the file list; [id] and [preview] come from the environment
    ([generateId], [URL.createObjectURL]). *)
Record UploadedFile := { id : string; file : File; preview : option string }.

(** One field per [useState] hook, in the order of the source, and the
    [useRef] cancellation flag, which every run of the component shares. *)
Record State := {
  files : list UploadedFile;
  status : ProcessingStatus.t;
  progress : Q;
  progressMessage : string;
  result : option Blob;
  error : option string;
  pageSize : PageSizeType;
  orientation : Orientation;
  margin : Z;
  centerImage : bool;
  scaleToFit : bool;
  svgScale : Z;
  batchMode : bool;
  imagesPerPdf : Z;
  batchResult : option BatchExportResult;
  draggedIndex : option nat;
  dragOverIndex : option nat;
  cancelledRef : bool
}.

(** The initial values given to the hooks. *)
Definition initialState : State := {|
  files := [];
  status := ProcessingStatus.idle;
  progress := 0%Q;
  progressMessage := "";
  result := None;
  error := None;
  pageSize := A4;
  orientation := auto;
  margin := 36;
  centerImage := true;
  scaleToFit := true;
  svgScale := 2;
  batchMode := false;
  imagesPerPdf := 10;
  batchResult := None;
  draggedIndex := None;
  dragOverIndex := None;
  cancelledRef := false
|}.

(** The state setters returned by the hooks. *)
Definition setFiles (v : list UploadedFile) (st : State) : State :=
  {| files := v; status := status st; progress := progress st; progressMessage
     := progressMessage st; result := result st; error := error st; pageSize
     := pageSize st; orientation := orientation st; margin := margin st;
     centerImage := centerImage st; scaleToFit := scaleToFit st; svgScale :=
     svgScale st; batchMode := batchMode st; imagesPerPdf := imagesPerPdf st;
     batchResult := batchResult st; draggedIndex := draggedIndex st;
     dragOverIndex := dragOverIndex st; cancelledRef := cancelledRef st |}.
Definition setStatus (v : ProcessingStatus.t) (st : State) : State :=
  {| files := files st; status := v; progress := progress st; progressMessage
     := progressMessage st; result := result st; error := error st; pageSize
     := pageSize st; orientation := orientation st; margin := margin st;
     centerImage := centerImage st; scaleToFit := scaleToFit st; svgScale :=
     svgScale st; batchMode := batchMode st; imagesPerPdf := imagesPerPdf st;
     batchResult := batchResult st; draggedIndex := draggedIndex st;
     dragOverIndex := dragOverIndex st; cancelledRef := cancelledRef st |}.
Definition setProgress (v : Q) (st : State) : State :=
  {| files := files st; status := status st; progress := v; progressMessage :=
     progressMessage st; result := result st; error := error st; pageSize :=
     pageSize st; orientation := orientation st; margin := margin st;
     centerImage := centerImage st; scaleToFit := scaleToFit st; svgScale :=
     svgScale st; batchMode := batchMode st; imagesPerPdf := imagesPerPdf st;
     batchResult := batchResult st; draggedIndex := draggedIndex st;
     dragOverIndex := dragOverIndex st; cancelledRef := cancelledRef st |}.
Definition setProgressMessage (v : string) (st : State) : State :=
  {| files := files st; status := status st; progress := progress st;
     progressMessage := v; result := result st; error := error st; pageSize :=
     pageSize st; orientation := orientation st; margin := margin st;
     centerImage := centerImage st; scaleToFit := scaleToFit st; svgScale :=
     svgScale st; batchMode := batchMode st; imagesPerPdf := imagesPerPdf st;
     batchResult := batchResult st; draggedIndex := draggedIndex st;
     dragOverIndex := dragOverIndex st; cancelledRef := cancelledRef st |}.
Definition setResult (v : option Blob) (st : State) : State :=
  {| files := files st; status := status st; progress := progress st;
     progressMessage := progressMessage st; result := v; error := error st;
     pageSize := pageSize st; orientation := orientation st; margin := margin
     st; centerImage := centerImage st; scaleToFit := scaleToFit st; svgScale
     := svgScale st; batchMode := batchMode st; imagesPerPdf := imagesPerPdf
     st; batchResult := batchResult st; draggedIndex := draggedIndex st;
     dragOverIndex := dragOverIndex st; cancelledRef := cancelledRef st |}.
Definition setError (v : option string) (st : State) : State :=
  {| files := files st; status := status st; progress := progress st;
     progressMessage := progressMessage st; result := result st; error := v;
     pageSize := pageSize st; orientation := orientation st; margin := margin
     st; centerImage := centerImage st; scaleToFit := scaleToFit st; svgScale
     := svgScale st; batchMode := batchMode st; imagesPerPdf := imagesPerPdf
     st; batchResult := batchResult st; draggedIndex := draggedIndex st;
     dragOverIndex := dragOverIndex st; cancelledRef := cancelledRef st |}.
Definition setPageSize (v : PageSizeType) (st : State) : State :=
  {| files := files st; status := status st; progress := progress st;
     progressMessage := progressMessage st; result := result st; error :=
     error st; pageSize := v; orientation := orientation st; margin := margin
     st; centerImage := centerImage st; scaleToFit := scaleToFit st; svgScale
     := svgScale st; batchMode := batchMode st; imagesPerPdf := imagesPerPdf
     st; batchResult := batchResult st; draggedIndex := draggedIndex st;
     dragOverIndex := dragOverIndex st; cancelledRef := cancelledRef st |}.
Definition setOrientation (v : Orientation) (st : State) : State :=
  {| files := files st; status := status st; progress := progress st;
     progressMessage := progressMessage st; result := result st; error :=
     error st; pageSize := pageSize st; orientation := v; margin := margin st;
     centerImage := centerImage st; scaleToFit := scaleToFit st; svgScale :=
     svgScale st; batchMode := batchMode st; imagesPerPdf := imagesPerPdf st;
     batchResult := batchResult st; draggedIndex := draggedIndex st;
     dragOverIndex := dragOverIndex st; cancelledRef := cancelledRef st |}.
Definition setMargin (v : Z) (st : State) : State :=
  {| files := files st; status := status st; progress := progress st;
     progressMessage := progressMessage st; result := result st; error :=
     error st; pageSize := pageSize st; orientation := orientation st; margin
     := v; centerImage := centerImage st; scaleToFit := scaleToFit st;
     svgScale := svgScale st; batchMode := batchMode st; imagesPerPdf :=
     imagesPerPdf st; batchResult := batchResult st; draggedIndex :=
     draggedIndex st; dragOverIndex := dragOverIndex st; cancelledRef :=
     cancelledRef st |}.
Definition setCenterImage (v : bool) (st : State) : State :=
  {| files := files st; status := status st; progress := progress st;
     progressMessage := progressMessage st; result := result st; error :=
     error st; pageSize := pageSize st; orientation := orientation st; margin
     := margin st; centerImage := v; scaleToFit := scaleToFit st; svgScale :=
     svgScale st; batchMode := batchMode st; imagesPerPdf := imagesPerPdf st;
     batchResult := batchResult st; draggedIndex := draggedIndex st;
     dragOverIndex := dragOverIndex st; cancelledRef := cancelledRef st |}.
Definition setScaleToFit (v : bool) (st : State) : State :=
  {| files := files st; status := status st; progress := progress st;
     progressMessage := progressMessage st; result := result st; error :=
     error st; pageSize := pageSize st; orientation := orientation st; margin
     := margin st; centerImage := centerImage st; scaleToFit := v; svgScale :=
     svgScale st; batchMode := batchMode st; imagesPerPdf := imagesPerPdf st;
     batchResult := batchResult st; draggedIndex := draggedIndex st;
     dragOverIndex := dragOverIndex st; cancelledRef := cancelledRef st |}.
Definition setSvgScale (v : Z) (st : State) : State :=
  {| files := files st; status := status st; progress := progress st;
     progressMessage := progressMessage st; result := result st; error :=
     error st; pageSize := pageSize st; orientation := orientation st; margin
     := margin st; centerImage := centerImage st; scaleToFit := scaleToFit st;
     svgScale := v; batchMode := batchMode st; imagesPerPdf := imagesPerPdf
     st; batchResult := batchResult st; draggedIndex := draggedIndex st;
     dragOverIndex := dragOverIndex st; cancelledRef := cancelledRef st |}.
Definition setBatchMode (v : bool) (st : State) : State :=
  {| files := files st; status := status st; progress := progress st;
     progressMessage := progressMessage st; result := result st; error :=
     error st; pageSize := pageSize st; orientation := orientation st; margin
     := margin st; centerImage := centerImage st; scaleToFit := scaleToFit st;
     svgScale := svgScale st; batchMode := v; imagesPerPdf := imagesPerPdf st;
     batchResult := batchResult st; draggedIndex := draggedIndex st;
     dragOverIndex := dragOverIndex st; cancelledRef := cancelledRef st |}.
Definition setImagesPerPdf (v : Z) (st : State) : State :=
  {| files := files st; status := status st; progress := progress st;
     progressMessage := progressMessage st; result := result st; error :=
     error st; pageSize := pageSize st; orientation := orientation st; margin
     := margin st; centerImage := centerImage st; scaleToFit := scaleToFit st;
     svgScale := svgScale st; batchMode := batchMode st; imagesPerPdf := v;
     batchResult := batchResult st; draggedIndex := draggedIndex st;
     dragOverIndex := dragOverIndex st; cancelledRef := cancelledRef st |}.
Definition setBatchResult (v : option BatchExportResult) (st : State) : State :=
  {| files := files st; status := status st; progress := progress st;
     progressMessage := progressMessage st; result := result st; error :=
     error st; pageSize := pageSize st; orientation := orientation st; margin
     := margin st; centerImage := centerImage st; scaleToFit := scaleToFit st;
     svgScale := svgScale st; batchMode := batchMode st; imagesPerPdf :=
     imagesPerPdf st; batchResult := v; draggedIndex := draggedIndex st;
     dragOverIndex := dragOverIndex st; cancelledRef := cancelledRef st |}.
Definition setDraggedIndex (v : option nat) (st : State) : State :=
  {| files := files st; status := status st; progress := progress st;
     progressMessage := progressMessage st; result := result st; error :=
     error st; pageSize := pageSize st; orientation := orientation st; margin
     := margin st; centerImage := centerImage st; scaleToFit := scaleToFit st;
     svgScale := svgScale st; batchMode := batchMode st; imagesPerPdf :=
     imagesPerPdf st; batchResult := batchResult st; draggedIndex := v;
     dragOverIndex := dragOverIndex st; cancelledRef := cancelledRef st |}.
Definition setDragOverIndex (v : option nat) (st : State) : State :=
  {| files := files st; status := status st; progress := progress st;
     progressMessage := progressMessage st; result := result st; error :=
     error st; pageSize := pageSize st; orientation := orientation st; margin
     := margin st; centerImage := centerImage st; scaleToFit := scaleToFit st;
     svgScale := svgScale st; batchMode := batchMode st; imagesPerPdf :=
     imagesPerPdf st; batchResult := batchResult st; draggedIndex :=
     draggedIndex st; dragOverIndex := v; cancelledRef := cancelledRef st |}.
Definition setCancelledRef (v : bool) (st : State) : State :=
  {| files := files st; status := status st; progress := progress st;
     progressMessage := progressMessage st; result := result st; error :=
     error st; pageSize := pageSize st; orientation := orientation st; margin
     := margin st; centerImage := centerImage st; scaleToFit := scaleToFit st;
     svgScale := svgScale st; batchMode := batchMode st; imagesPerPdf :=
     imagesPerPdf st; batchResult := batchResult st; draggedIndex :=
     draggedIndex st; dragOverIndex := dragOverIndex st; cancelledRef := v |}.

(** ** The handlers *)

Definition handleFilesSelected (uploadedFiles : list UploadedFile) (st : State) : State :=
  setResult None (setError None (setFiles (files st ++ uploadedFiles) st)).

Definition handleUploadError (errorMessage : string) (st : State) : State :=
  setError (Some errorMessage) st.

Definition handleRemoveFile (i : string) (st : State) : State :=
  setResult None
    (setFiles (filter (fun f => negb (String.eqb (id f) i)) (files st)) st).

Definition handleClearAll (st : State) : State :=
  setProgress 0%Q
    (setStatus ProcessingStatus.idle
       (setError None (setBatchResult None (setResult None (setFiles [] st))))).

Definition handleDragStart (index : nat) (st : State) : State :=
  setDraggedIndex (Some index) st.

Definition handleDragOver (index : nat) (st : State) : State :=
  match draggedIndex st with
  | Some d => if negb (d =? index)%nat then setDragOverIndex (Some index) st else st
  | None => st
  end.

(** [const newFiles = [...prev]; const [draggedFile] = newFiles.splice(i, 1);
    newFiles.splice(j, 0, draggedFile)].  An entry of the list built is
    [Some f] for a file and [None] for [undefined]: [splice(i, 1)] past the
    end removes nothing, [draggedFile] is then [undefined], and the second
    [splice] still inserts it, so the list grows by one.  A [j] past the end
    inserts at the end. *)
Definition reorder (i j : nat) (l : list UploadedFile) : list (option UploadedFile) :=
  let newFiles := Some <$> l in
  let draggedFile := l !! i in
  let newFiles := delete i newFiles in
  take j newFiles ++ draggedFile :: drop j newFiles.

(** The files of a list none of whose entries is [undefined]. *)
Fixpoint definedFiles (l : list (option UploadedFile)) : option (list UploadedFile) :=
  match l with
  | [] => Some []
  | Some f :: l => match definedFiles l with Some fs => Some (f :: fs) | None => None end
  | None :: _ => None
  end.

(** The drag-end handler and the render that follows it.  The result is
    [None] when the list set holds [undefined]: the render maps over the
    list and reads [file.id] of every entry, which throws on [undefined],
    and nothing in the component catches it, so no component state follows. *)
Definition handleDragEnd (st : State) : option State :=
  let finish st' := setDragOverIndex None (setDraggedIndex None st') in
  match draggedIndex st, dragOverIndex st with
  | Some d, Some o =>
      if negb (d =? o)%nat then
        match definedFiles (reorder d o (files st)) with
        | Some newFiles => Some (finish (setFiles newFiles st))
        | None => None
        end
      else Some (finish st)
  | _, _ => Some (finish st)
  end.

(** [onChange] of the images-per-PDF input:
    [Math.max(1, Math.min(files.length, parseInt(e.target.value) || 1))]. *)
Definition clampImagesPerPdf (n : nat) (value : string) : Z :=
  Z.max 1 (Z.min (Z.of_nat n) (JS.numOr (JS.parseInt value) 1)).

Definition handleImagesPerPdfChange (value : string) (st : State) : State :=
  setImagesPerPdf (clampImagesPerPdf (length (files st)) value) st.

Definition options (st : State) : ImageToPDFOptions := {|
  optPageSize := pageSize st;
  optOrientation := orientation st;
  optMargin := margin st;
  optCenterImage := centerImage st;
  optScaleToFit := scaleToFit st;
  optSvgScale := svgScale st
|}.

(** The synchronous part of [handleConvert], up to the [await]: the new state
    and the engine call issued, if any. *)
Definition handleConvert (st : State) : State * option EngineCall :=
  if (length (files st) <? 1)%nat then
    (setError (Some "Please add at least 1 image file.") st, None)
  else
    let st' :=
      setBatchResult None
        (setResult None
           (setError None
              (setProgress 0%Q
                 (setStatus ProcessingStatus.processing
                    (setCancelledRef false st))))) in
    (* Check if batch mode is enabled and there are enough images *)
    if batchMode st && (Z.of_nat (length (files st)) >? imagesPerPdf st) then
      (st', Some (imagesToPDFBatch (file <$> files st) (imagesPerPdf st) (options st)))
    else
      (st', Some (imagesToPDF (file <$> files st) (options st))).

(** The progress callback handed to the engine, the same for both calls. *)
Definition onProgress (prog : Q) (msg : option string) (st : State) : State :=
  if negb (cancelledRef st) then
    setProgressMessage (JS.strOr msg "") (setProgress prog st)
  else st.

(** The [catch] clause of [handleConvert]. *)
Definition catchClause (err : Thrown) (st : State) : State :=
  if negb (cancelledRef st) then
    setStatus ProcessingStatus.error
      (setError
         (Some match err with
               | ThrownError msg => msg
               | ThrownOther => "An unexpected error occurred."
               end) st)
  else st.

(** [handleConvert] after the [await] of [imagesToPDFBatch]. *)
Definition batchSettled (r : EngineResult BatchExportResult) (st : State) : State :=
  match r with
  | Resolved output =>
      if cancelledRef st then setStatus ProcessingStatus.idle st
      else
        match success output, outResult output with
        | true, Some res =>
            setStatus ProcessingStatus.complete (setBatchResult (Some res) st)
        | _, _ =>
            setStatus ProcessingStatus.error
              (setError
                 (Some (JS.strOr (message <$> outError output)
                          "Failed to create batch PDFs.")) st)
        end
  | Rejected err => catchClause err st
  end.

(** [handleConvert] after the [await] of [imagesToPDF]. *)
Definition singleSettled (r : EngineResult Blob) (st : State) : State :=
  match r with
  | Resolved output =>
      if cancelledRef st then setStatus ProcessingStatus.idle st
      else
        match success output, outResult output with
        | true, Some res =>
            setStatus ProcessingStatus.complete (setResult (Some res) st)
        | _, _ =>
            setStatus ProcessingStatus.error
              (setError
                 (Some (JS.strOr (message <$> outError output)
                          "Failed to convert images to PDF.")) st)
        end
  | Rejected err => catchClause err st
  end.

Definition handleCancel (st : State) : State :=
  setProgress 0%Q (setStatus ProcessingStatus.idle (setCancelledRef true st)).

(** ** What is rendered *)

Definition isProcessing (st : State) : bool :=
  ProcessingStatus.eqb (status st) ProcessingStatus.processing
  || ProcessingStatus.eqb (status st) ProcessingStatus.uploading.

Definition canConvert (st : State) : bool :=
  (1 <=? length (files st))%nat && negb (isProcessing st).

(** A [DownloadButton]: the blob offered and the name it is saved under. *)
Record DownloadButton := { dlFile : Blob; filename : string }.

(** File name of the single-document download. *)
Definition resultFilename (fs : list UploadedFile) : string :=
  match fs with
  | [f] => JS.stripExtension (name (file f)) ++ ".pdf"
  | _ => "images_" ++ JS.showNat (length fs) ++ "_pages.pdf"
  end.

(** [{result && <DownloadButton .../>}] *)
Definition resultDownload (st : State) : option DownloadButton :=
  match result st with
  | Some blob => Some {| dlFile := blob; filename := resultFilename (files st) |}
  | None => None
  end.

(** [{batchResult && <DownloadButton .../>}] *)
Definition batchDownload (st : State) : option DownloadButton :=
  match batchResult st with
  | Some br =>
      Some {| dlFile := zipBlob br;
              filename := "images_" ++ JS.showNat (pdfCount br) ++ "_pdfs.zip" |}
  | None => None
  end.

(** [{error && <div role="alert">...}] *)
Definition errorAlert (st : State) : option string :=
  if JS.truthy (error st) then error st else None.

(** The counts interpolated into the batch success message. *)
Definition batchSuccessMessage (st : State) : option (nat * nat) :=
  match status st, batchResult st with
  | ProcessingStatus.complete, Some br => Some (pdfCount br, imageCount br)
  | _, _ => None
  end.

(** The number of documents announced under the images-per-PDF input:
    [Math.ceil(files.length / imagesPerPdf)]. *)
Definition batchModeHint (st : State) : Z :=
  JS.ceilDiv (Z.of_nat (length (files st))) (imagesPerPdf st).

(** ** The component with its engine calls in flight *)

(** The component state together with the engine promises that have not
    settled yet, oldest first.  Nothing in the source aborts a call: a call
    leaves the list only by settling. *)
Record Sys := { ui : State; inFlight : list EngineCall }.

Definition initialSys : Sys := {| ui := initialState; inFlight := [] |}.

Inductive Event :=
| EvFilesSelected (uploadedFiles : list UploadedFile)
| EvUploadError (errorMessage : string)
| EvRemoveFile (i : string)
| EvClearAll
| EvDragStart (index : nat)
| EvDragOver (index : nat)
| EvDragEnd
| EvSetPageSize (v : PageSizeType)
| EvSetOrientation (v : Orientation)
| EvSetMargin (v : Z)
| EvSetCenterImage (v : bool)
| EvSetScaleToFit (v : bool)
| EvSetSvgScale (v : Z)
| EvSetBatchMode (v : bool)
| EvImagesPerPdfChange (value : string)
| EvConvert
| EvCancel
| EvProgress (run : nat) (prog : Q) (msg : option string)
| EvBatchSettled (run : nat) (r : EngineResult BatchExportResult)
| EvSingleSettled (run : nat) (r : EngineResult Blob).

Definition isCancel (e : Event) : bool :=
  match e with EvCancel => true | _ => false end.

Definition isSettled (e : Event) : bool :=
  match e with EvBatchSettled _ _ | EvSingleSettled _ _ => true | _ => false end.

(** A user event reaches its handler only through a control that is rendered
    and not disabled. *)
Definition onUi (enabled : bool) (h : State -> State) (s : Sys) : option Sys :=
  if enabled then Some {| ui := h (ui s); inFlight := inFlight s |} else None.

(** [disabled={isProcessing}]: the uploader, the remove buttons and the
    drag handles ([draggable={!isProcessing}]). *)
Definition idleControls (st : State) : bool := negb (isProcessing st).

(** The image list and the options panel are rendered for at least one file;
    their controls carry [disabled={isProcessing}]. *)
Definition optionsPanel (st : State) : bool :=
  (1 <=? length (files st))%nat && negb (isProcessing st).

(** The batch options are rendered under [files.length > 1]. *)
Definition batchPanel (st : State) : bool :=
  (1 <? length (files st))%nat && negb (isProcessing st).

(** One event of the component.  Convert is the click on the button
    ([disabled={!canConvert}]); Cancel is [onCancel] of the progress panel,
    rendered under [isProcessing]; the images-per-PDF input is rendered under
    [batchMode]; a progress callback or a settlement belongs to a call in
    flight, named by its position.  The result is [None] when the event
    cannot occur in the state, and for a drag end after which the component
    cannot be rendered. *)
Definition step (e : Event) (s : Sys) : option Sys :=
  let st := ui s in
  match e with
  | EvFilesSelected fs => onUi (idleControls st) (handleFilesSelected fs) s
  | EvUploadError m => onUi (idleControls st) (handleUploadError m) s
  | EvRemoveFile i => onUi (idleControls st) (handleRemoveFile i) s
  | EvClearAll => onUi (optionsPanel st) handleClearAll s
  | EvDragStart i =>
      onUi (idleControls st && (i <? length (files st))%nat) (handleDragStart i) s
  | EvDragOver i => onUi (i <? length (files st))%nat (handleDragOver i) s
  | EvDragEnd =>
      match handleDragEnd st with
      | Some st' => Some {| ui := st'; inFlight := inFlight s |}
      | None => None
      end
  | EvSetPageSize v => onUi (optionsPanel st) (setPageSize v) s
  | EvSetOrientation v => onUi (optionsPanel st) (setOrientation v) s
  | EvSetMargin v => onUi (optionsPanel st) (setMargin v) s
  | EvSetCenterImage v => onUi (optionsPanel st) (setCenterImage v) s
  | EvSetScaleToFit v => onUi (optionsPanel st) (setScaleToFit v) s
  | EvSetSvgScale v => onUi (optionsPanel st) (setSvgScale v) s
  | EvSetBatchMode v => onUi (batchPanel st) (setBatchMode v) s
  | EvImagesPerPdfChange v =>
      onUi (batchPanel st && batchMode st) (handleImagesPerPdfChange v) s
  | EvConvert =>
      if canConvert st then
        let '(st', call) := handleConvert st in
        Some {| ui := st'; inFlight := inFlight s ++ option_list call |}
      else None
  | EvCancel => onUi (isProcessing st) handleCancel s
  | EvProgress run prog msg =>
      match inFlight s !! run with
      | Some _ => Some {| ui := onProgress prog msg st; inFlight := inFlight s |}
      | None => None
      end
  | EvBatchSettled run r =>
      match inFlight s !! run with
      | Some (imagesToPDFBatch _ _ _) =>
          Some {| ui := batchSettled r st; inFlight := delete run (inFlight s) |}
      | _ => None
      end
  | EvSingleSettled run r =>
      match inFlight s !! run with
      | Some (imagesToPDF _ _) =>
          Some {| ui := singleSettled r st; inFlight := delete run (inFlight s) |}
      | _ => None
      end
  end.

(** Running a sequence of events; [None] when one of them cannot occur or
    leaves no component to go on with. *)
Fixpoint exec (evs : list Event) (s : Sys) : option Sys :=
  match evs with
  | [] => Some s
  | e :: evs' =>
      match step e s with
      | Some s' => exec evs' s'
      | None => None
      end
  end.

Definition reachable (s : Sys) : Prop := exists evs, exec evs initialSys = Some s.

(** The two sides of the outcome shown to the user. *)
Definition successSide (st : State) : Prop :=
  is_Some (result st) \/ is_Some (batchResult st).

Definition failureSide (st : State) : Prop := is_Some (error st).

(** ** Predicates and sample sessions used in the statements *)

Definition takesBatchPath (st : State) : Prop :=
  exists fs g o, snd (handleConvert st) = Some (imagesToPDFBatch fs g o).

Definition png (n : string) : File :=
  {| name := n ++ ".png"; type := "image/png"; size := 1024 |}.

Definition uploaded (n : string) : UploadedFile :=
  {| id := "id-" ++ n; file := png n; preview := Some ("blob:" ++ n) |}.

(** Two images are added, batch mode is switched on and the images-per-PDF
    input is set to 2: one group. *)
Definition oneGroupSession : list Event :=
  [EvFilesSelected [uploaded "a"; uploaded "b"];
   EvSetBatchMode true;
   EvImagesPerPdfChange "2"].

Definition threeImagesBatchOfTwo : State :=
  setImagesPerPdf 2
    (setBatchMode true
       (setFiles [uploaded "a"; uploaded "b"; uploaded "c"] initialState)).

Definition holidayPdf : Blob := [Byte.x25; Byte.x50; Byte.x44; Byte.x46].

Definition threePdfs : BatchExportResult :=
  {| zipBlob := [Byte.x50; Byte.x4b; Byte.x03; Byte.x04];
     pdfCount := 3; imageCount := 25 |}.

(** The group size of a batch call lies between 1 and the number of files
    handed over with it. *)
Definition groupSizeInRange (c : EngineCall) : Prop :=
  match c with
  | imagesToPDFBatch fs g _ => 1 <= g <= Z.of_nat (length fs)
  | imagesToPDF _ _ => True
  end.

Definition groupSizeInv (s : Sys) : Prop :=
  1 <= imagesPerPdf (ui s) /\ Forall groupSizeInRange (inFlight s).

Definition threeImages : State :=
  setFiles [uploaded "a"; uploaded "b"; uploaded "c"] initialState.

Definition exactlyOneSide (st : State) : Prop :=
  (successSide st /\ ~ failureSide st /\ status st = ProcessingStatus.complete) \/
  (failureSide st /\ ~ successSide st /\ status st = ProcessingStatus.error).

(** Nothing is shown: neither result nor error. *)
Definition cleared (st : State) : Prop :=
  result st = None /\ batchResult st = None /\ error st = None.

(** One call in flight that has not been cancelled. *)
Definition runningAlone (s : Sys) : Prop :=
  exists call,
    inFlight s = [call] /\
    status (ui s) = ProcessingStatus.processing /\
    cancelledRef (ui s) = false /\
    cleared (ui s).

(** One call in flight, cancelled, with the flag still set and nothing of the
    run shown. *)
Definition cancelledPending (s : Sys) : Prop :=
  exists call,
    inFlight s = [call] /\
    status (ui s) = ProcessingStatus.idle /\
    cancelledRef (ui s) = true /\
    result (ui s) = None /\
    batchResult (ui s) = None /\
    progress (ui s) = 0%Q.

(** One image is added and converted; the run is cancelled, the margin is
    changed and a second conversion is started while the first engine call
    has not settled: call 0 is the cancelled run, call 1 the new one. *)
Definition cancelRestartSession : list Event :=
  [EvFilesSelected [uploaded "a"];
   EvConvert;
   EvCancel;
   EvSetMargin 72;
   EvConvert].

Definition marginOptions (m : Z) : ImageToPDFOptions :=
  {| optPageSize := A4; optOrientation := auto; optMargin := m;
     optCenterImage := true; optScaleToFit := true; optSvgScale := 2 |}.

Definition succeeded {R} (res : R) : EngineResult R :=
  Resolved {| success := true; outResult := Some res; outError := None |}.

Definition failed {R} (msg : string) : EngineResult R :=
  Resolved {| success := false; outResult := None;
              outError := Some {| message := msg |} |}.

(** The PDF of the cancelled first call of [cancelRestartSession]. *)
Definition cancelledPdf : Blob := [Byte.x25; Byte.x50; Byte.x44; Byte.x46; Byte.x2d].

(** After [cancelRestartSession] the cancelled call resolves, which ends the
    processing state and enables the uploader again; the file list is then
    changed while the second call, made for the one file [a.png], has not
    settled; finally the second call resolves with its PDF. *)
Definition restartThenChange (change : Event) : list Event :=
  (cancelRestartSession ++
   [EvSingleSettled 0 (succeeded cancelledPdf);
    change;
    EvSingleSettled 0 (succeeded holidayPdf)])%list.

(** Modelled from the spec: the number of documents a call produces.  A
    batch call yields one document per group; the single-document mode is the
    degenerate case of one group holding all the files. *)
Definition documentsProduced (call : EngineCall) : nat :=
  match call with
  | imagesToPDFBatch fs groupSize _ =>
      match Engine.groups fs groupSize with
      | inr gs => fst (Engine.counts gs)
      | inl _ => 0
      end
  | imagesToPDF _ _ => 1
  end.

(** ** Further parts of the component *)

(** [String.prototype.toLowerCase] on the characters of an ASCII string. *)
Definition lowerChar (c : ascii) : ascii :=
  let n := nat_of_ascii c in
  if ((65 <=? n) && (n <=? 90))%nat then ascii_of_nat (n + 32) else c.

Fixpoint toLowerCase (s : string) : string :=
  match s with
  | String c s' => String (lowerChar c) (toLowerCase s')
  | EmptyString => EmptyString
  end.

(** All supported formats: the MIME types, then the extensions. *)
Definition allAcceptedTypes : list string :=
  ["image/jpeg"; "image/png"; "image/webp"; "image/bmp";
   "image/tiff"; "image/svg+xml"; "image/heic"; "image/heif";
   ".jpg"; ".jpeg"; ".png"; ".webp"; ".bmp"; ".tiff"; ".tif"; ".svg";
   ".heic"; ".heif"].

(** The [switch] of [getAcceptedTypes] on the lower-cased type, its default
    falling through to all the supported formats. *)
Definition acceptedTypesFor (t : string) : list string :=
  if String.eqb t "jpg" || String.eqb t "jpeg" then
    ["image/jpeg"; ".jpg"; ".jpeg"]
  else if String.eqb t "png" then ["image/png"; ".png"]
  else if String.eqb t "webp" then ["image/webp"; ".webp"]
  else if String.eqb t "bmp" then ["image/bmp"; ".bmp"]
  else if String.eqb t "tiff" || String.eqb t "tif" then
    ["image/tiff"; ".tiff"; ".tif"]
  else if String.eqb t "svg" then ["image/svg+xml"; ".svg"]
  else if String.eqb t "heic" || String.eqb t "heif" then
    ["image/heic"; "image/heif"; ".heic"; ".heif"]
  else allAcceptedTypes.

(** [getAcceptedTypes]: an absent or empty [imageType] prop gives all the
    supported formats. *)
Definition getAcceptedTypes (imageType : option string) : list string :=
  match imageType with
  | Some (String _ _ as t) => acceptedTypesFor (toLowerCase t)
  | _ => allAcceptedTypes
  end.

(** Inclusion of one list of names in another, by comparison. *)
Definition includedb (l1 l2 : list string) : bool :=
  forallb (fun x => existsb (String.eqb x) l2) l1.

(** The integer [n] of [Number.prototype.toFixed(1)] for a non-negative
    number: [n / 10] is the value nearest to [x], the larger [n] on a tie. *)
Definition tenths (x : Q) : Z := Qfloor (x * inject_Z 10 + (1 # 2))%Q.

(** The digits of [toFixed(1)]: all digits of [n] but the last, a dot, the
    last digit. *)
Definition showTenths (n : Z) : string :=
  pretty (n / 10) ++ "." ++ pretty (n mod 10).

Definition toFixed1 (x : Q) : string :=
  if Qle_bool 0%Q x then showTenths (tenths x)
  else "-" ++ showTenths (tenths (- x)%Q).

(** [formatSize].  The two quotients are divisions by a power of two, which
    are exact on the doubles that hold a file size. *)
Definition formatSize (bytes : Z) : string :=
  if bytes <? 1024 then pretty bytes ++ " B"
  else if bytes <? 1024 * 1024 then
    toFixed1 (inject_Z bytes / inject_Z 1024)%Q ++ " KB"
  else toFixed1 (inject_Z bytes / inject_Z (1024 * 1024))%Q ++ " MB".

(** The number of cancel requests in a sequence of events. *)
Definition cancelCount (evs : list Event) : nat :=
  length (filter (fun e => isCancel e = true) evs).

(** 1 when the progress panel is hidden, 0 while it is shown. *)
Definition idleWeight (st : State) : nat := if isProcessing st then 0 else 1.

(** The progress panel is shown only with the flag clear and a call in
    flight, and the status is never [uploading]. *)
Definition processingInv (s : Sys) : Prop :=
  status (ui s) <> ProcessingStatus.uploading /\
  (status (ui s) = ProcessingStatus.processing ->
   cancelledRef (ui s) = false /\ inFlight s <> []).


(** [String.prototype.endsWith]. *)
Fixpoint endsWith (s suffix : string) : bool :=
  String.eqb s suffix
  || match s with
     | String _ s' => endsWith s' suffix
     | EmptyString => false
     end.

(** The test of the SVG quality option on one file. *)
Definition isSvgFile (f : UploadedFile) : bool :=
  endsWith (toLowerCase (name (file f))) ".svg"
  || String.eqb (type (file f)) "image/svg+xml".

(** Whether the SVG quality option is rendered: inside the options panel,
    under [imageType === 'svg' || files.some(...)]. *)
Definition showSvgQuality (imageType : option string) (st : State) : bool :=
  (1 <=? length (files st))%nat
  && (match imageType with Some t => String.eqb t "svg" | None => false end
      || existsb isSvgFile (files st)).
(** * Properties *)

(** ** The convert handler *)

Ltac unfold_handlers :=
  unfold handleFilesSelected, handleUploadError, handleRemoveFile, handleClearAll,
    handleDragStart, handleDragOver, handleDragEnd, handleImagesPerPdfChange,
    handleCancel, onProgress, catchClause, batchSettled, singleSettled in *.

Lemma length_ltb_1 {A} (l : list A) : (length l <? 1)%nat = false <-> l <> [].
Proof.
  destruct l as [|x l]; split; intros H; try done.
Qed.

Lemma handleConvert_empty st :
  files st = [] ->
  handleConvert st = (setError (Some "Please add at least 1 image file.") st, None).
Proof. intros H. unfold handleConvert. rewrite H. reflexivity. Qed.

Lemma handleConvert_started st :
  files st <> [] ->
  exists call,
    snd (handleConvert st) = Some call /\
    fst (handleConvert st) =
      setBatchResult None
        (setResult None
           (setError None
              (setProgress 0%Q
                 (setStatus ProcessingStatus.processing
                    (setCancelledRef false st))))).
Proof.
  intros H. apply length_ltb_1 in H. unfold handleConvert. rewrite H.
  destruct (batchMode st && _); eauto.
Qed.

Lemma handleConvert_batch st :
  files st <> [] ->
  batchMode st = true ->
  Z.of_nat (length (files st)) > imagesPerPdf st ->
  snd (handleConvert st) =
    Some (imagesToPDFBatch (file <$> files st) (imagesPerPdf st) (options st)).
Proof.
  intros Hne Hb Hgt. apply length_ltb_1 in Hne.
  unfold handleConvert. rewrite Hne, Hb.
  replace (_ >? _) with true by (symmetry; apply Z.gtb_lt; lia).
  reflexivity.
Qed.

Lemma handleConvert_single st :
  files st <> [] ->
  batchMode st = false \/ Z.of_nat (length (files st)) <= imagesPerPdf st ->
  snd (handleConvert st) = Some (imagesToPDF (file <$> files st) (options st)).
Proof.
  intros Hne Hor. apply length_ltb_1 in Hne.
  unfold handleConvert. rewrite Hne.
  destruct Hor as [-> | Hle]; [reflexivity |].
  replace (_ >? _) with false; [by rewrite andb_false_r |].
  symmetry. rewrite Z.gtb_ltb. apply Z.ltb_ge. lia.
Qed.

(** ** Defaults *)

(** C7: the hooks start from pageSize A4, orientation auto, a margin of 36
    points, centerImage and scaleToFit on, svgScale 2, and a batch group size
    that is an integer at least 1; these are the options a first conversion
    hands to the engine. *)
Theorem c7_default_options :
  pageSize initialState = A4 /\
  orientation initialState = auto /\
  margin initialState = 36 /\
  centerImage initialState = true /\
  scaleToFit initialState = true /\
  svgScale initialState = 2 /\
  1 <= imagesPerPdf initialState /\
  options initialState =
    {| optPageSize := A4; optOrientation := auto; optMargin := 36;
       optCenterImage := true; optScaleToFit := true; optSvgScale := 2 |}.
Proof. repeat split; reflexivity || (simpl; lia). Qed.

(** ** Validation of the input *)

(** C6: with an empty file list [handleConvert] only stores the message
    asking for at least one image, which the alert then shows; no engine call
    is issued, and status, progress, progress message, both results and the
    cancellation flag stay as they were. *)
Theorem c6_empty_input_rejected (st : State) (Hempty : files st = []) :
  snd (handleConvert st) = None /\
  error (fst (handleConvert st)) = Some "Please add at least 1 image file." /\
  errorAlert (fst (handleConvert st)) = Some "Please add at least 1 image file." /\
  status (fst (handleConvert st)) = status st /\
  progress (fst (handleConvert st)) = progress st /\
  progressMessage (fst (handleConvert st)) = progressMessage st /\
  result (fst (handleConvert st)) = result st /\
  batchResult (fst (handleConvert st)) = batchResult st /\
  cancelledRef (fst (handleConvert st)) = cancelledRef st.
Proof. rewrite handleConvert_empty by assumption. repeat split. Qed.

Lemma c6_empty_input_rejected_witness :
  files initialState = [] /\
  snd (handleConvert initialState) = None /\
  status (fst (handleConvert initialState)) = ProcessingStatus.idle.
Proof.
  split; [reflexivity |].
  pose proof (c6_empty_input_rejected initialState eq_refl) as H.
  split; [apply H |]. apply (proj1 (proj2 (proj2 (proj2 H)))).
Defined.

(** ** Which engine entry point a run uses *)

(** C1, as stated, fails: after [oneGroupSession] batch mode is on, there
    are two files and the group size is 2, yet [handleConvert] calls
    [imagesToPDF], and once that call succeeds only the single PDF is stored,
    with no batch result. *)
Lemma c1_one_group_takes_single_path :
  exists s,
    exec oneGroupSession initialSys = Some s /\
    batchMode (ui s) = true /\
    length (files (ui s)) = 2%nat /\
    imagesPerPdf (ui s) = 2 /\
    snd (handleConvert (ui s)) =
      Some (imagesToPDF [png "a"; png "b"] (options initialState)) /\
    ~ takesBatchPath (ui s) /\
    forall blob,
      exec (oneGroupSession ++
              [EvConvert;
               EvSingleSettled 0
                 (Resolved {| success := true; outResult := Some blob;
                              outError := None |})]) initialSys
      = Some {| ui := setStatus ProcessingStatus.complete
                        (setResult (Some blob) (fst (handleConvert (ui s))));
                inFlight := [] |}.
Proof.
  eexists. split; [vm_compute; reflexivity |].
  do 4 (split; [vm_compute; reflexivity |]).
  split.
  - intros (fs & g & o & H). vm_compute in H. discriminate H.
  - intros blob. vm_compute. reflexivity.
Qed.

(** C1, amended: with batch mode on and a valid input, a run whose file count
    is greater than the group size calls [imagesToPDFBatch] on all the files
    with that group size; when the call succeeds its result is stored, the
    archive is offered for download and the success message reports pdfCount
    and imageCount.  A run whose file count is at most the group size calls
    [imagesToPDF] instead. *)
Theorem c1_batch_path_needs_more_files_than_group (st : State)
    (Hbatch : batchMode st = true)
    (Hfiles : files st <> [])
    (Hgroup : 1 <= imagesPerPdf st) :
  (Z.of_nat (length (files st)) > imagesPerPdf st ->
   snd (handleConvert st) =
     Some (imagesToPDFBatch (file <$> files st) (imagesPerPdf st) (options st)) /\
   forall output res,
     success output = true ->
     outResult output = Some res ->
     let st' := batchSettled (Resolved output) (fst (handleConvert st)) in
     batchResult st' = Some res /\
     status st' = ProcessingStatus.complete /\
     result st' = None /\
     error st' = None /\
     batchDownload st' =
       Some {| dlFile := zipBlob res;
               filename := "images_" ++ JS.showNat (pdfCount res) ++ "_pdfs.zip" |} /\
     batchSuccessMessage st' = Some (pdfCount res, imageCount res)) /\
  (Z.of_nat (length (files st)) <= imagesPerPdf st ->
   snd (handleConvert st) = Some (imagesToPDF (file <$> files st) (options st))).
Proof.
  split.
  - intros Hgt. split; [by apply handleConvert_batch |].
    intros output res Hs Hr.
    destruct (handleConvert_started st Hfiles) as (call & _ & ->).
    unfold batchSettled, batchDownload, batchSuccessMessage.
    cbn. rewrite Hs, Hr. cbn. done.
  - intros Hle. apply handleConvert_single; auto.
Qed.

Lemma c1_batch_path_needs_more_files_than_group_witness :
  snd (handleConvert threeImagesBatchOfTwo) =
    Some (imagesToPDFBatch [png "a"; png "b"; png "c"] 2 (options initialState)).
Proof.
  refine (proj1 (proj1 (c1_batch_path_needs_more_files_than_group
                          threeImagesBatchOfTwo eq_refl _ _) _)).
  - discriminate.
  - vm_compute. discriminate.
  - reflexivity.
Defined.

(** ** The number of documents of a batch *)

(** [Math.ceil(a / b)] for a positive divisor, in integer arithmetic. *)
Lemma ceilDiv_pos (a : Z) (b : positive) :
  JS.ceilDiv a (Zpos b) = (a + Zpos b - 1) / Zpos b.
Proof.
  unfold JS.ceilDiv, Qceiling, Qfloor, Qdiv, Qmult, Qinv, Qopp, inject_Z.
  cbn [Qnum Qden]. rewrite Z.mul_1_r. change (1 * b)%positive with b.
  set (g := Zpos b). assert (0 < g) as Hg by (unfold g; lia).
  apply (Z.div_unique _ _ _ (g - 1 - (- a) mod g)).
  - left. pose proof (Z.mod_pos_bound (- a) g Hg). lia.
  - pose proof (Z.div_mod (- a) g ltac:(lia)). lia.
Qed.

Lemma ceilDiv_one_group (n g : Z) : 1 <= n <= g -> JS.ceilDiv n g = 1.
Proof.
  intros H. destruct g as [|g|g]; try lia. rewrite ceilDiv_pos.
  symmetry. apply (Z.div_unique _ _ _ (n - 1)); lia.
Qed.

Lemma partition_length {A} (g : positive) (l : list A) :
  Z.of_nat (length (Engine.partition g l)) = JS.ceilDiv (Z.of_nat (length l)) (Zpos g).
Proof.
  rewrite ceilDiv_pos. funelim (Engine.partition g l).
  - simp partition. cbn [length]. symmetry. apply Z.div_small. lia.
  - simp partition. cbn [length] in *.
    match goal with IH : Z.of_nat _ = _ |- _ => rewrite Nat2Z.inj_succ, IH end.
    rewrite length_drop. cbn [length].
    destruct (decide (Pos.to_nat groupSize <= S (length l))%nat) as [Hle | Hgt].
    + replace (Z.of_nat (S (length l) - Pos.to_nat groupSize))
        with (Z.of_nat (S (length l)) - Zpos groupSize) by lia.
      replace (Z.of_nat (S (length l)) + Z.pos groupSize - 1)
        with (Z.of_nat (S (length l)) - Z.pos groupSize + Z.pos groupSize - 1
              + 1 * Z.pos groupSize) by lia.
      rewrite Z.div_add by lia. lia.
    + replace (S (length l) - Pos.to_nat groupSize)%nat with 0%nat by lia.
      rewrite (Z.div_small (Z.of_nat 0 + _ - 1)) by lia.
      change (Z.succ 0) with 1.
      apply (Z.div_unique _ _ 1 (Z.of_nat (S (length l)) - 1)); lia.
Qed.

Lemma partition_concat {A} (g : positive) (l : list A) :
  concat (Engine.partition g l) = l.
Proof.
  funelim (Engine.partition g l); simp partition; [reflexivity |].
  cbn [concat].
  match goal with IH : concat _ = _ |- _ => rewrite IH end.
  apply take_drop.
Qed.

Lemma sum_list_length_concat {A} (ls : list (list A)) :
  sum_list (length <$> ls) = length (concat ls).
Proof.
  induction ls as [|l ls IH]; [reflexivity |].
  cbn [fmap list_fmap sum_list concat]. rewrite length_app.
  unfold sum_list in *. cbn. f_equal. exact IH.
Qed.

(** Every group is non-empty and holds at most [groupSize] files. *)
Lemma partition_group_sizes {A} (g : positive) (l : list A) :
  Forall (fun grp => 1 <= Z.of_nat (length grp) <= Zpos g) (Engine.partition g l).
Proof.
  funelim (Engine.partition g l); simp partition; constructor; [| assumption].
  rewrite length_take. cbn [length]. lia.
Qed.

Lemma groups_valid (fs : list File) (groupSize : Z) :
  fs <> [] -> 1 <= groupSize ->
  exists g, groupSize = Zpos g /\ Engine.groups fs groupSize = inr (Engine.partition g fs).
Proof.
  intros Hne Hg. destruct groupSize as [|g|g]; try lia.
  exists g. split; [reflexivity |]. by destruct fs.
Qed.

(** C2: for a non-empty file list and a group size of at least 1 the batch
    export yields ceil(imageCount / groupSize) documents, made of non-empty
    groups of at most groupSize files that together are the input in its
    order, so imageCount is the number of files; 25 files in groups of 10
    give 3 documents of 10, 10 and 5 pages.
    In the component, a run in batch mode produces as many documents as the
    hint under the images-per-PDF input announces, whichever engine call it
    issues. *)
Theorem c2_pdf_count_is_ceiling :
  (forall (fs : list File) (groupSize : Z),
     fs <> [] -> 1 <= groupSize ->
     exists gs,
       Engine.groups fs groupSize = inr gs /\
       snd (Engine.counts gs) = length fs /\
       Z.of_nat (fst (Engine.counts gs)) =
         JS.ceilDiv (Z.of_nat (snd (Engine.counts gs))) groupSize /\
       Forall (fun grp => 1 <= Z.of_nat (length grp) <= groupSize) gs /\
       concat gs = fs) /\
  (forall fs : list File,
     length fs = 25%nat ->
     exists gs,
       Engine.groups fs 10 = inr gs /\
       length <$> gs = [10; 10; 5]%nat /\
       Engine.counts gs = (3, 25)%nat) /\
  (forall st,
     batchMode st = true -> files st <> [] -> 1 <= imagesPerPdf st ->
     exists call,
       snd (handleConvert st) = Some call /\
       Z.of_nat (documentsProduced call) = batchModeHint st).
Proof.
  split; [| split].
  - intros fs groupSize Hne Hg.
    destruct (groups_valid fs groupSize Hne Hg) as (g & -> & ->).
    eexists. split; [reflexivity |].
    unfold Engine.counts. cbn [fst snd].
    rewrite sum_list_length_concat, partition_concat.
    split; [reflexivity |]. split; [apply partition_length |].
    split; [apply partition_group_sizes | reflexivity].
  - intros fs Hlen.
    do 25 (destruct fs as [|? fs]; [discriminate Hlen |]).
    destruct fs; [| discriminate Hlen].
    eexists. split; [reflexivity |].
    split; [| unfold Engine.counts]; simp partition; reflexivity.
  - intros st Hb Hne Hg. unfold batchModeHint.
    destruct (Z_gt_le_dec (Z.of_nat (length (files st))) (imagesPerPdf st)) as [Hgt | Hle].
    + eexists. split; [by apply handleConvert_batch |].
      cbn [documentsProduced].
      assert (file <$> files st <> []) as Hne' by (by destruct (files st)).
      destruct (groups_valid _ _ Hne' Hg) as (g & Hgs & ->).
      cbn [Engine.counts fst]. rewrite partition_length, length_fmap, Hgs. reflexivity.
    + eexists. split; [apply handleConvert_single; auto |].
      cbn [documentsProduced]. symmetry. apply ceilDiv_one_group.
      assert (1 <= length (files st))%nat
        by (destruct (files st); [done | cbn [length]; lia]).
      lia.
Qed.

Lemma c2_pdf_count_is_ceiling_witness :
  exists gs,
    Engine.groups (replicate 25 (png "page")) 10 = inr gs /\
    snd (Engine.counts gs) = 25%nat /\
    Z.of_nat (fst (Engine.counts gs)) = 3.
Proof.
  destruct (proj1 c2_pdf_count_is_ceiling (replicate 25 (png "page")) 10)
    as (gs & Hgs & Hn & Hc & _ & _).
  - discriminate.
  - lia.
  - exists gs. split; [exact Hgs |]. split; [exact Hn |].
    rewrite Hc, Hn. vm_compute. reflexivity.
Defined.

(** ** Executions *)

Lemma exec_app (evs1 evs2 : list Event) (s : Sys) :
  exec (evs1 ++ evs2)%list s = exec evs1 s ≫= exec evs2.
Proof.
  revert s. induction evs1 as [|e evs1 IH]; intros s; [reflexivity |].
  simpl. destruct (step e s); [apply IH | reflexivity].
Qed.

(** An invariant of the steps whose events satisfy [P] holds along every
    execution made of such events. *)
Lemma exec_invariant_on (P : Event -> Prop) (I : Sys -> Prop) :
  (forall e s s', P e -> I s -> step e s = Some s' -> I s') ->
  forall evs s s', Forall P evs -> I s -> exec evs s = Some s' -> I s'.
Proof.
  intros Hstep evs. induction evs as [|e evs IH]; intros s s' HP Hs Hexec.
  - simpl in Hexec. by simplify_eq.
  - simpl in Hexec. destruct (step e s) as [s1|] eqn:E; [| done].
    apply Forall_cons in HP as [He HP].
    eapply IH; [exact HP | | exact Hexec]. eapply Hstep; eauto.
Qed.

Lemma exec_invariant (I : Sys -> Prop) :
  (forall e s s', I s -> step e s = Some s' -> I s') ->
  forall evs s s', I s -> exec evs s = Some s' -> I s'.
Proof.
  intros Hstep evs s s'. apply (exec_invariant_on (fun _ => True)); [eauto |].
  by apply Forall_true.
Qed.

Lemma reachable_invariant (I : Sys -> Prop) :
  I initialSys ->
  (forall e s s', I s -> step e s = Some s' -> I s') ->
  forall s, reachable s -> I s.
Proof. intros H0 Hstep s [evs Hevs]. eapply exec_invariant; eauto. Qed.

Lemma onUi_Some (enabled : bool) (h : State -> State) (s s' : Sys) :
  onUi enabled h s = Some s' ->
  enabled = true /\ ui s' = h (ui s) /\ inFlight s' = inFlight s.
Proof. unfold onUi. destruct enabled; intros H; by simplify_eq. Qed.

(** ** Dropping a tile *)

Lemma definedFiles_fmap (l : list UploadedFile) : definedFiles (Some <$> l) = Some l.
Proof. induction l as [|x l IH]; [reflexivity |]. cbn. change (map Some l) with (Some <$> l). by rewrite IH. Qed.

Lemma definedFiles_Some (l : list (option UploadedFile)) (fs : list UploadedFile) :
  definedFiles l = Some fs <-> l = Some <$> fs.
Proof.
  split; [| intros ->; apply definedFiles_fmap].
  revert fs. induction l as [|[x|] l IH]; intros fs H; cbn in H.
  - by simplify_eq.
  - destruct (definedFiles l) as [fs'|]; [| done]. simplify_eq.
    by rewrite (IH fs').
  - done.
Qed.

Lemma definedFiles_None (l : list (option UploadedFile)) :
  definedFiles l = None <-> None ∈ l.
Proof.
  induction l as [|[x|] l IH]; cbn.
  - split; [done | by intros ?%elem_of_nil].
  - rewrite elem_of_cons, <- IH. destruct (definedFiles l); split; intros; try done.
    + by destruct H.
    + by right.
  - split; [intros _; apply list_elem_of_here | done].
Qed.

(** The list after the two splices when the dragged entry exists. *)
Lemma reorder_defined (i j : nat) (l : list UploadedFile) (x : UploadedFile) :
  l !! i = Some x ->
  reorder i j l = Some <$> (take j (delete i l) ++ x :: drop j (delete i l))%list.
Proof.
  intros E. unfold reorder. rewrite E.
  by rewrite fmap_app, fmap_cons, fmap_take, fmap_drop, list_fmap_delete.
Qed.

(** When the dragged index is past the end, nothing is removed and
    [undefined] is inserted. *)
Lemma reorder_undefined (i j : nat) (l : list UploadedFile) :
  l !! i = None ->
  reorder i j l = (take j (Some <$> l) ++ None :: drop j (Some <$> l))%list.
Proof.
  intros E. unfold reorder. rewrite E.
  apply lookup_ge_None in E.
  assert (length (Some <$> l) <= i)%nat as Hlen by (by rewrite length_fmap).
  rewrite delete_take_drop, (take_ge _ i), (drop_ge _ (S i)), app_nil_r by lia.
  done.
Qed.

Lemma definedFiles_reorder (i j : nat) (l : list UploadedFile) :
  definedFiles (reorder i j l) =
    match l !! i with
    | Some x => Some (take j (delete i l) ++ x :: drop j (delete i l))%list
    | None => None
    end.
Proof.
  destruct (l !! i) as [x|] eqn:E.
  - rewrite (reorder_defined _ _ _ _ E). apply definedFiles_fmap.
  - rewrite (reorder_undefined _ _ _ E). apply definedFiles_None.
    apply elem_of_app. right. apply list_elem_of_here.
Qed.

Lemma moved_Permutation (i j : nat) (l : list UploadedFile) (x : UploadedFile) :
  l !! i = Some x -> (take j (delete i l) ++ x :: drop j (delete i l))%list ≡ₚ l.
Proof.
  intros E. etrans; [| symmetry; apply (delete_Permutation l i x E)].
  rewrite <- Permutation_middle. by rewrite take_drop.
Qed.

Lemma finish_setFiles (st : State) :
  setDragOverIndex None (setDraggedIndex None st) =
  setDragOverIndex None (setDraggedIndex None (setFiles (files st) st)).
Proof. by destruct st. Qed.

(** A drag end after which the component is rendered leaves a permutation
    of the files and clears the drag state; nothing else changes. *)
Lemma handleDragEnd_Some (st st' : State) :
  handleDragEnd st = Some st' ->
  exists newFiles : list UploadedFile,
    newFiles ≡ₚ files st /\
    st' = setDragOverIndex None (setDraggedIndex None (setFiles newFiles st)).
Proof.
  unfold handleDragEnd. intros H.
  destruct (draggedIndex st) as [d|], (dragOverIndex st) as [o|];
    try (simplify_eq; exists (files st); split; [done | apply finish_setFiles]).
  destruct (negb (d =? o)%nat);
    [| simplify_eq; exists (files st); split; [done | apply finish_setFiles]].
  rewrite definedFiles_reorder in H.
  destruct (files st !! d) as [x|] eqn:E; [| done]. simplify_eq.
  eexists. split; [by apply moved_Permutation | done].
Qed.

Lemma step_dragEnd (s s' : Sys) :
  step EvDragEnd s = Some s' ->
  exists newFiles : list UploadedFile,
    newFiles ≡ₚ files (ui s) /\
    ui s' = setDragOverIndex None (setDraggedIndex None (setFiles newFiles (ui s))) /\
    inFlight s' = inFlight s.
Proof.
  cbn [step]. intros H. destruct (handleDragEnd (ui s)) as [st'|] eqn:E; [| done].
  simplify_eq. apply handleDragEnd_Some in E as (fs & Hp & ->). by exists fs.
Qed.

(** What a step does to the calls in flight: a user event other than Convert
    and a progress callback leave them alone, Convert adds the call it
    issues, a settlement removes the settled call. *)
Lemma step_inFlight (e : Event) (s s' : Sys) :
  step e s = Some s' ->
  (inFlight s' = inFlight s /\ isSettled e = false /\ e <> EvConvert) \/
  (e = EvConvert /\ canConvert (ui s) = true /\
   ui s' = fst (handleConvert (ui s)) /\
   inFlight s' = (inFlight s ++ option_list (snd (handleConvert (ui s))))%list) \/
  (exists run call, isSettled e = true /\ inFlight s !! run = Some call /\
                    inFlight s' = delete run (inFlight s)).
Proof.
  intros H. destruct e; cbn [step] in H;
    try (apply onUi_Some in H as (_ & _ & ->); left; done).
  - apply step_dragEnd in H as (_ & _ & _ & ->). left; done.
  - right; left. destruct (canConvert (ui s)); [| done].
    destruct (handleConvert (ui s)) as [st' call]. by simplify_eq.
  - destruct (inFlight s !! run); [| done]. simplify_eq. left; done.
  - right; right. destruct (inFlight s !! run) as [[]|] eqn:E; try done.
    simplify_eq. eauto.
  - right; right. destruct (inFlight s !! run) as [[]|] eqn:E; try done.
    simplify_eq. eauto.
Qed.

(** ** The group size *)

Lemma clampImagesPerPdf_range (n : nat) (value : string) :
  (1 <= n)%nat -> 1 <= clampImagesPerPdf n value <= Z.of_nat n.
Proof. unfold clampImagesPerPdf. lia. Qed.

Lemma clampImagesPerPdf_ge_1 (n : nat) (value : string) :
  1 <= clampImagesPerPdf n value.
Proof. unfold clampImagesPerPdf. lia. Qed.

Lemma clampImagesPerPdf_NaN (n : nat) (value : string) :
  JS.parseInt value = None -> clampImagesPerPdf n value = 1.
Proof. unfold clampImagesPerPdf. intros ->. simpl. lia. Qed.

Lemma step_imagesPerPdf_ge_1 (e : Event) (s s' : Sys) :
  1 <= imagesPerPdf (ui s) -> step e s = Some s' -> 1 <= imagesPerPdf (ui s').
Proof.
  intros Hinv H. destruct e; cbn [step] in H;
    try (apply onUi_Some in H as (_ & -> & _); unfold_handlers;
         repeat case_match; simpl; first [exact Hinv | apply clampImagesPerPdf_ge_1]).
  - apply step_dragEnd in H as (fs & _ & -> & _). exact Hinv.
  - destruct (canConvert (ui s)); [| done]. unfold handleConvert in H.
    repeat case_match; simplify_eq; exact Hinv.
  - destruct (inFlight s !! run); [| done]. simplify_eq. simpl.
    unfold onProgress. by case_match.
  - destruct (inFlight s !! run) as [[]|]; try done. simplify_eq. simpl.
    unfold batchSettled, catchClause. repeat case_match; exact Hinv.
  - destruct (inFlight s !! run) as [[]|]; try done. simplify_eq. simpl.
    unfold singleSettled, catchClause. repeat case_match; exact Hinv.
Qed.

Lemma handleConvert_groupSizeInRange (st : State) (call : EngineCall) :
  1 <= imagesPerPdf st ->
  snd (handleConvert st) = Some call -> groupSizeInRange call.
Proof.
  intros Hinv. unfold handleConvert.
  destruct (length (files st) <? 1)%nat; [done |].
  destruct (batchMode st); cbn [andb snd].
  - destruct (Z.gtb_spec (Z.of_nat (length (files st))) (imagesPerPdf st)) as [Hgt | Hle];
      intros Hcall; cbn [snd] in Hcall; simplify_eq; cbn [groupSizeInRange].
    + rewrite length_fmap. lia.
    + exact I.
  - intros Hcall. cbn [snd] in Hcall. simplify_eq. exact I.
Qed.

Lemma step_groupSizeInv (e : Event) (s s' : Sys) :
  groupSizeInv s -> step e s = Some s' -> groupSizeInv s'.
Proof.
  intros [Hg Hcalls] H. split; [by eapply step_imagesPerPdf_ge_1 |].
  destruct (step_inFlight e s s' H)
    as [(-> & _) | [(_ & _ & _ & ->) | (run & call & _ & _ & ->)]].
  - exact Hcalls.
  - apply Forall_app. split; [exact Hcalls |].
    destruct (snd (handleConvert (ui s))) as [call|] eqn:E; simpl; [| constructor].
    repeat constructor. by eapply handleConvert_groupSizeInRange.
  - by apply Forall_delete.
Qed.

(** Reading a typed number: [parseInt] on the decimal form of an integer. *)

Lemma digitValue_pretty_char (d : N) :
  (d < 10)%N -> JS.digitValue (pretty_N_char d) = Some (Z.of_N d).
Proof.
  intros Hd.
  assert (d = 0 \/ d = 1 \/ d = 2 \/ d = 3 \/ d = 4 \/ d = 5 \/ d = 6 \/ d = 7
          \/ d = 8 \/ d = 9)%N as Hcases by lia.
  repeat (destruct Hcases as [-> | Hcases]; [reflexivity |]). by subst.
Qed.

Lemma parseDigits_digit (acc : option Z) (d : N) (s : string) :
  (d < 10)%N ->
  JS.parseDigits 10 acc (String (pretty_N_char d) s) =
    JS.parseDigits 10 (Some (default 0 acc * 10 + Z.of_N d)) s.
Proof.
  intros Hd. cbn [JS.parseDigits]. rewrite digitValue_pretty_char by done.
  replace (Z.of_N d <? 10) with true by (symmetry; apply Z.ltb_lt; lia).
  reflexivity.
Qed.

(** Reading back the digits that [pretty] writes. *)
Lemma parseDigits_pretty_go (x : N) :
  forall (acc : option Z) (s : string),
    (0 < x)%N ->
    exists k : Z,
      0 <= k /\
      JS.parseDigits 10 acc (pretty_N_go x s) =
        JS.parseDigits 10 (Some (default 0 acc * 10 ^ k + Z.of_N x)) s.
Proof.
  induction (N.lt_wf_0 x) as [x _ IH]. intros acc s Hx.
  rewrite pretty_N_go_step by done.
  pose proof (N.mod_lt x 10 ltac:(lia)) as Hmod.
  pose proof (N.div_mod x 10 ltac:(lia)) as Hdm.
  destruct (decide (x `div` 10 = 0)%N) as [Hz | Hnz].
  - rewrite Hz, pretty_N_go_0, parseDigits_digit by done.
    exists 1. split; [lia |]. do 2 f_equal. lia.
  - destruct (IH (x `div` 10)%N ltac:(apply N.div_lt; lia) acc
                (String (pretty_N_char (x `mod` 10)) s)
                ltac:(by apply N.neq_0_lt_0))
      as (k & Hk & ->).
    rewrite parseDigits_digit by done. cbn [default].
    exists (k + 1). split; [lia |]. do 2 f_equal.
    rewrite Z.pow_add_r, Z.pow_1_r by lia. unfold Datatypes.id.
    assert (Z.of_N x = 10 * Z.of_N (x `div` 10) + Z.of_N (x `mod` 10)) by lia.
    lia.
Qed.

(** What [pretty] writes for a positive number starts with a digit from 1
    to 9. *)
Lemma pretty_go_head (x : N) :
  forall s, (0 < x)%N ->
    exists d r, pretty_N_go x s = String (pretty_N_char d) r /\ (0 < d < 10)%N.
Proof.
  induction (N.lt_wf_0 x) as [x _ IH]. intros s Hx.
  rewrite pretty_N_go_step by done.
  destruct (decide (x `div` 10 = 0)%N) as [Hz | Hnz].
  - rewrite Hz, pretty_N_go_0. exists (x `mod` 10)%N, s. split; [done |].
    pose proof (N.mod_lt x 10 ltac:(lia)) as Hm.
    pose proof (N.div_mod x 10 ltac:(lia)) as Hdm. rewrite Hz in Hdm. lia.
  - apply IH; [apply N.div_lt; lia | by apply N.neq_0_lt_0].
Qed.

Ltac eval_char_tests :=
  repeat match goal with
         | |- context [JS.isWhiteSpace ?c] =>
             let v := eval vm_compute in (JS.isWhiteSpace c) in
             change (JS.isWhiteSpace c) with v
         end;
  cbn [JS.parseDigits];
  repeat match goal with
         | |- context [JS.digitValue ?c] =>
             let v := eval vm_compute in (JS.digitValue c) in
             change (JS.digitValue c) with v
         end.

Lemma parseInt_leading_digit (d : N) (r : string) :
  (0 < d < 10)%N ->
  JS.parseInt (String (pretty_N_char d) r) =
    (fun m => 1 * m) <$> JS.parseDigits 10 None (String (pretty_N_char d) r) /\
  JS.parseInt (String "-" (String (pretty_N_char d) r)) =
    (fun m => -1 * m) <$> JS.parseDigits 10 None (String (pretty_N_char d) r).
Proof.
  intros Hd.
  assert (d = 1 \/ d = 2 \/ d = 3 \/ d = 4 \/ d = 5 \/ d = 6 \/ d = 7
          \/ d = 8 \/ d = 9)%N as Hcases by lia.
  unfold JS.parseInt.
  repeat (destruct Hcases as [-> | Hcases];
          [cbn [JS.trimStart pretty_N_char]; eval_char_tests; cbn;
           split; by case_match |]).
  subst. cbn [JS.trimStart pretty_N_char]. eval_char_tests. cbn.
  split; by case_match.
Qed.

Lemma parseInt_pretty_pos (p : positive) :
  JS.parseInt (pretty (Npos p)) = Some (Zpos p) /\
  JS.parseInt ("-" ++ pretty (Npos p)) = Some (Zneg p).
Proof.
  unfold pretty, pretty_N. rewrite decide_False by done.
  destruct (pretty_go_head (Npos p) "" ltac:(lia)) as (d & r & Hhead & Hd).
  destruct (parseDigits_pretty_go (Npos p) None "" ltac:(lia)) as (k & _ & Hparse).
  cbn [default JS.parseDigits] in Hparse. rewrite Z.mul_0_l, Z.add_0_l in Hparse.
  change ("-" ++ pretty_N_go (N.pos p) "") with (String "-" (pretty_N_go (N.pos p) "")).
  rewrite Hhead in *. destruct (parseInt_leading_digit d r Hd) as [-> ->].
  rewrite Hparse. cbn. split; reflexivity.
Qed.

(** [parseInt] reads back the decimal form of every integer. *)
Lemma parseInt_pretty (z : Z) : JS.parseInt (pretty z) = Some z.
Proof.
  destruct z as [|p|p]; [reflexivity | |].
  - apply (proj1 (parseInt_pretty_pos p)).
  - apply (proj2 (parseInt_pretty_pos p)).
Qed.

(** What is stored for a value that [parseInt] reads as the integer k. *)
Lemma clampImagesPerPdf_parsed (n : nat) (value : string) (k : Z) :
  JS.parseInt value = Some k ->
  clampImagesPerPdf n value = Z.max 1 (Z.min (Z.of_nat n) k).
Proof.
  intros Hk. unfold clampImagesPerPdf. rewrite Hk. cbn [JS.numOr].
  destruct (Z.eqb_spec k 0); lia.
Qed.

(** C9: with n >= 1 files loaded, whatever is typed into the images-per-PDF
    input the stored group size is an integer between 1 and n, and it is the
    typed value clamped to that range: a value that [parseInt] reads as the
    integer k is stored as max(1, min(n, k)), so the decimal form of a k
    between 1 and n is stored as k itself, of a larger k as n, and of zero
    or a negative k as 1; a value that [parseInt] cannot read, the empty one
    included, is stored as 1.  In every state the component can reach, each
    batch conversion in flight was given a group size between 1 and the
    number of files it was given. *)
Theorem c9_group_size_clamped :
  (forall st value,
     (1 <= length (files st))%nat ->
     1 <= imagesPerPdf (handleImagesPerPdfChange value st)
       <= Z.of_nat (length (files st))) /\
  (forall st value k,
     JS.parseInt value = Some k ->
     imagesPerPdf (handleImagesPerPdfChange value st) =
       Z.max 1 (Z.min (Z.of_nat (length (files st))) k)) /\
  (forall st k,
     1 <= k <= Z.of_nat (length (files st)) ->
     imagesPerPdf (handleImagesPerPdfChange (pretty k) st) = k) /\
  (forall st k,
     (1 <= length (files st))%nat ->
     Z.of_nat (length (files st)) < k ->
     imagesPerPdf (handleImagesPerPdfChange (pretty k) st) =
       Z.of_nat (length (files st))) /\
  (forall st k,
     k < 1 ->
     imagesPerPdf (handleImagesPerPdfChange (pretty k) st) = 1) /\
  (forall st value,
     JS.parseInt value = None ->
     imagesPerPdf (handleImagesPerPdfChange value st) = 1) /\
  JS.parseInt "" = None /\
  (forall s fs groupSize o,
     reachable s ->
     imagesToPDFBatch fs groupSize o ∈ inFlight s ->
     1 <= groupSize <= Z.of_nat (length fs)).
Proof.
  assert (forall st k,
            imagesPerPdf (handleImagesPerPdfChange (pretty k) st) =
              Z.max 1 (Z.min (Z.of_nat (length (files st))) k)) as Htyped
    by (intros st k; apply clampImagesPerPdf_parsed, parseInt_pretty).
  split; [| split; [| split; [| split; [| split; [| split; [| split]]]]]].
  - intros st value Hn. by apply clampImagesPerPdf_range.
  - intros st value k Hk. by apply clampImagesPerPdf_parsed.
  - intros st k Hk. rewrite Htyped. lia.
  - intros st k Hn Hk. rewrite Htyped. lia.
  - intros st k Hk. rewrite Htyped. lia.
  - intros st value Hnan. by apply clampImagesPerPdf_NaN.
  - reflexivity.
  - intros s fs g o Hreach Hin.
    assert (groupSizeInv s) as [_ Hcalls].
    { clear Hin. revert s Hreach. apply reachable_invariant.
      - split; [simpl; lia | constructor].
      - intros e s s'. apply step_groupSizeInv. }
    rewrite Forall_forall in Hcalls. apply (Hcalls _ Hin).
Qed.

Lemma c9_group_size_clamped_witness :
  (1 <= length (files threeImages))%nat /\
  1 <= imagesPerPdf (handleImagesPerPdfChange "7" threeImages) <= 3 /\
  imagesPerPdf (handleImagesPerPdfChange "7" threeImages) = 3 /\
  imagesPerPdf (handleImagesPerPdfChange "2" threeImages) = 2.
Proof.
  assert (1 <= length (files threeImages))%nat as Hn by (vm_compute; lia).
  split; [exact Hn |].
  split; [exact (proj1 c9_group_size_clamped threeImages "7" Hn) |].
  split.
  - exact (proj1 (proj2 (proj2 (proj2 c9_group_size_clamped)))
             threeImages 7 Hn ltac:(vm_compute; reflexivity)).
  - apply (proj1 (proj2 (proj2 c9_group_size_clamped)) threeImages 2).
    vm_compute. split; discriminate.
Defined.

Example clampImagesPerPdf_samples :
  clampImagesPerPdf 3 <$> [""; "abc"; "0"; "-4"; "2"; "2.9"; "7"; "3 per file"]
  = [1; 1; 1; 1; 2; 2; 3; 3].
Proof. vm_compute. reflexivity. Qed.

(** ** The cancellation flag *)

(** While the flag stays set, the guard of the callback drops every update,
    and cancelling resets the progress. *)
Lemma onProgress_cancelled (prog : Q) (msg : option string) (st : State) :
  cancelledRef st = true -> onProgress prog msg st = st.
Proof. intros H. unfold onProgress. by rewrite H. Qed.

Lemma handleCancel_resets (st : State) :
  cancelledRef (handleCancel st) = true /\
  progress (handleCancel st) = 0%Q /\
  status (handleCancel st) = ProcessingStatus.idle.
Proof. done. Qed.

Lemma setStatus_same (st : State) : setStatus (status st) st = st.
Proof. by destruct st. Qed.

(** The settlement of a call whose run has been cancelled, with the flag
    still set, writes nothing. *)
Lemma settled_while_cancelled (st : State) :
  cancelledRef st = true -> status st = ProcessingStatus.idle ->
  (forall r, batchSettled r st = st) /\ (forall r, singleSettled r st = st).
Proof.
  intros Hc Hst.
  split; intros [output | err]; unfold batchSettled, singleSettled, catchClause;
    rewrite Hc; cbn [negb]; try reflexivity; rewrite <- Hst; apply setStatus_same.
Qed.

(** ** A run on its own *)

Lemma convert_from_quiet (s s' : Sys) :
  inFlight s = [] -> step EvConvert s = Some s' -> runningAlone s'.
Proof.
  intros Hq H. destruct (step_inFlight _ _ _ H)
    as [(_ & _ & Hne) | [(_ & Hcan & Hui & Hfl) | (run & call & Hs & _)]];
    [done | | done].
  assert (files (ui s) <> []) as Hfiles.
  { unfold canConvert in Hcan. apply andb_true_iff in Hcan as [Hlen _].
    destruct (files (ui s)); [done | done]. }
  destruct (handleConvert_started _ Hfiles) as (call & Hcall & Hst).
  exists call. rewrite Hfl, Hq, Hcall, Hui, Hst. done.
Qed.

Ltac processing_disables H Hstatus :=
  apply onUi_Some in H as (H & _);
  unfold idleControls, optionsPanel, batchPanel, isProcessing in H;
  rewrite Hstatus in H; cbn in H; rewrite ?andb_false_r in H; discriminate H.

(** While a run is alone and processing, the controls are disabled: only a
    cancel request, a progress callback, a settlement and the drag events of
    a drag under way can occur. *)
Lemma runningAlone_step (e : Event) (s s' : Sys) :
  runningAlone s ->
  step e s = Some s' ->
  match e with
  | EvCancel => True
  | EvBatchSettled _ _ | EvSingleSettled _ _ =>
      inFlight s' = [] /\ exactlyOneSide (ui s')
  | _ => runningAlone s'
  end.
Proof.
  intros (call & Hfl & Hst & Hc & Hr & Hb & He) H.
  destruct e; cbn [step] in H; try (processing_disables H Hst).
  - (* drag over *)
    apply onUi_Some in H as (_ & Hui & Hfl'). exists call.
    rewrite Hui, Hfl'. unfold handleDragOver, cleared.
    repeat case_match; done.
  - (* drag end *)
    apply step_dragEnd in H as (fs & _ & Hui & Hfl'). exists call.
    rewrite Hui, Hfl'. done.
  - (* convert *)
    unfold canConvert, isProcessing in H. rewrite Hst in H. cbn in H.
    rewrite andb_false_r in H. discriminate H.
  - (* cancel *)
    exact I.
  - (* progress *)
    destruct (inFlight s !! run); [| done]. simplify_eq. exists call.
    unfold onProgress, cleared. cbn [ui inFlight]. rewrite Hc. done.
  - (* batch call settled *)
    destruct (inFlight s !! run) as [[]|] eqn:E; try done. simplify_eq.
    cbn [ui inFlight]. rewrite Hfl in *.
    destruct run; [| done]. split; [done |].
    unfold batchSettled, catchClause, exactlyOneSide, successSide, failureSide.
    rewrite Hc. destruct r as [[[] [res|] oe] | err]; cbn;
      rewrite ?Hr, ?Hb, ?He;
      first [ left; split; [right; eauto | split; [by intros [] | done]]
            | right; split; [eauto | split; [by intros [[]|[]] | done]] ].
  - (* single call settled *)
    destruct (inFlight s !! run) as [[]|] eqn:E; try done. simplify_eq.
    cbn [ui inFlight]. rewrite Hfl in *.
    destruct run; [| done]. split; [done |].
    unfold singleSettled, catchClause, exactlyOneSide, successSide, failureSide.
    rewrite Hc. destruct r as [[[] [res|] oe] | err]; cbn;
      rewrite ?Hr, ?Hb, ?He;
      first [ left; split; [left; eauto | split; [by intros [] | done]]
            | right; split; [eauto | split; [by intros [[]|[]] | done]] ].
Qed.

(** A run started with no other call in flight and never cancelled ends with
    exactly one side of the outcome shown. *)
Lemma isolated_run_exactly_one_side (s s' : Sys) (evs : list Event) (e : Event) :
  inFlight s = [] ->
  Forall (fun e => isCancel e = false) evs ->
  isSettled e = true ->
  exec (evs ++ [e])%list s = Some s' ->
  exactlyOneSide (ui s').
Proof.
  intros Hq Hnc Hsettle Hexec. rewrite exec_app in Hexec.
  destruct (exec evs s) as [s1|] eqn:E1; [| done]. cbn in Hexec.
  destruct (step e s1) as [s2|] eqn:E2; [| done]. simplify_eq.
  assert (inFlight s1 = [] \/ runningAlone s1) as [Hq1 | Hrun].
  { apply (exec_invariant_on (fun e => isCancel e = false)
             (fun s1 => inFlight s1 = [] \/ runningAlone s1)) with (evs := evs) (s := s);
      [| done | by left | done].
    intros e0 sa sb He0 [Hqa | Hra] Hstep.
    - destruct (step_inFlight _ _ _ Hstep)
        as [(-> & _) | [(-> & _) | (run & call & _ & Hl & _)]].
      + by left.
      + right. by eapply convert_from_quiet.
      + rewrite Hqa in Hl. done.
    - pose proof (runningAlone_step e0 sa sb Hra Hstep) as H.
      destruct e0; try (by right); try done. by left; destruct H. by left; destruct H. }
  - destruct (step_inFlight _ _ _ E2)
      as [(_ & Hs & _) | [(-> & _) | (run & call & _ & Hl & _)]].
    + congruence.
    + done.
    + rewrite Hq1 in Hl. done.
  - pose proof (runningAlone_step e s1 s' Hrun E2) as H.
    destruct e; try done; by destruct H.
Qed.

Lemma runningAlone_cancel (s s' : Sys) :
  runningAlone s -> step EvCancel s = Some s' ->
  cancelledPending s' /\ error (ui s') = None.
Proof.
  intros (call & Hfl & Hst & Hc & Hr & Hb & He) H. cbn [step] in H.
  apply onUi_Some in H as (_ & Hui & Hfl').
  split; [exists call; rewrite Hui, Hfl'; done | rewrite Hui; done].
Qed.

(** After the only run has been cancelled and as long as no conversion is
    started, the flag stays set: progress callbacks are dropped, the
    settlement writes nothing, and no other event brings a result, a status
    other than idle, a progress other than 0 or another progress message. *)
Lemma cancelledPending_step (e : Event) (s s' : Sys) :
  cancelledPending s ->
  e <> EvConvert ->
  step e s = Some s' ->
  progressMessage (ui s') = progressMessage (ui s) /\
  match e with
  | EvBatchSettled _ _ | EvSingleSettled _ _ => inFlight s' = [] /\ ui s' = ui s
  | EvProgress _ _ _ => ui s' = ui s /\ cancelledPending s'
  | _ => cancelledPending s'
  end.
Proof.
  intros (call & Hfl & Hst & Hc & Hr & Hb & Hp) Hne H.
  destruct e; cbn [step] in H;
    try (apply onUi_Some in H as (Hen & Hui & Hfl');
         split; [rewrite Hui; unfold_handlers; repeat case_match; done |];
         exists call; rewrite Hui, Hfl'; unfold_handlers;
         repeat case_match; done).
  - apply step_dragEnd in H as (fs & _ & Hui & Hfl').
    split; [by rewrite Hui |]. exists call. rewrite Hui, Hfl'. done.
  - done.
  - destruct (inFlight s !! run); [| done]. simplify_eq.
    cbn [ui inFlight]. rewrite onProgress_cancelled by done.
    split; [done |]. split; [done |]. by exists call.
  - destruct (inFlight s !! run) as [[]|] eqn:E; try done. simplify_eq.
    cbn [ui inFlight]. rewrite Hfl in *. destruct run; [| done].
    rewrite (proj1 (settled_while_cancelled _ Hc Hst)). done.
  - destruct (inFlight s !! run) as [[]|] eqn:E; try done. simplify_eq.
    cbn [ui inFlight]. rewrite Hfl in *. destruct run; [| done].
    rewrite (proj2 (settled_while_cancelled _ Hc Hst)). done.
Qed.

(** A run started with no other call in flight and then cancelled hands
    nothing over, whatever the user does meanwhile, provided no conversion is
    started before its engine call settles: the settlement leaves the state
    as it finds it, idle, without result and with the progress at 0, and
    the progress message is the one shown when the run was cancelled. *)
Lemma cancelled_run_discarded_unless_restarted
    (s s' : Sys) (before after : list Event) (e : Event) :
  inFlight s = [] ->
  Forall (fun e => isCancel e = false /\ isSettled e = false) before ->
  Forall (fun e => e <> EvConvert /\ isSettled e = false) after ->
  isSettled e = true ->
  exec (EvConvert :: before ++ EvCancel :: after ++ [e])%list s = Some s' ->
  exists s2 s4,
    exec (EvConvert :: before)%list s = Some s2 /\
    exec (EvConvert :: before ++ EvCancel :: after)%list s = Some s4 /\
    ui s' = ui s4 /\
    inFlight s' = [] /\
    status (ui s') = ProcessingStatus.idle /\
    result (ui s') = None /\
    batchResult (ui s') = None /\
    progress (ui s') = 0%Q /\
    progressMessage (ui s') = progressMessage (ui s2).
Proof.
  intros Hq Hb Ha Hsettle Hexec.
  change (exec ([EvConvert] ++ before ++ [EvCancel] ++ after ++ [e])%list s = Some s')
    in Hexec.
  rewrite exec_app in Hexec.
  destruct (exec [EvConvert] s) as [s1|] eqn:E1; [| done].
  cbn [mbind option_bind] in Hexec. rewrite exec_app in Hexec.
  destruct (exec before s1) as [s2|] eqn:E2; [| done].
  cbn [mbind option_bind] in Hexec. rewrite exec_app in Hexec.
  destruct (exec [EvCancel] s2) as [s3|] eqn:E3; [| done].
  cbn [mbind option_bind] in Hexec. rewrite exec_app in Hexec.
  destruct (exec after s3) as [s4|] eqn:E4; [| done].
  cbn [mbind option_bind] in Hexec.
  assert (exec (EvConvert :: before)%list s = Some s2) as X2.
  { change (exec ([EvConvert] ++ before)%list s = Some s2).
    by rewrite exec_app, E1. }
  assert (exec (EvConvert :: before ++ EvCancel :: after)%list s = Some s4) as X4.
  { change (exec ([EvConvert] ++ before ++ [EvCancel] ++ after)%list s = Some s4).
    rewrite exec_app, E1. cbn [mbind option_bind].
    rewrite exec_app, E2. cbn [mbind option_bind].
    by rewrite exec_app, E3. }
  cbn [exec] in E1, E3, Hexec.
  destruct (step EvConvert s) as [s1'|] eqn:S1; [| done]. simplify_eq.
  destruct (step EvCancel s2) as [s3'|] eqn:S3; [| done]. simplify_eq.
  destruct (step e s4) as [s5|] eqn:S5; [| done]. simplify_eq.
  pose proof (convert_from_quiet _ _ Hq S1) as H1.
  assert (runningAlone s2) as H2.
  { apply (exec_invariant_on
             (fun e => isCancel e = false /\ isSettled e = false) runningAlone)
      with (evs := before) (s := s1); [| done | done | done].
    intros e0 sa sb [Hnc Hns] Hsa Hstep.
    pose proof (runningAlone_step e0 sa sb Hsa Hstep) as Hsb. by destruct e0. }
  destruct (runningAlone_cancel _ _ H2 S3) as [H3 _].
  assert (progressMessage (ui s3) = progressMessage (ui s2)) as Hmsg.
  { cbn [step] in S3. by apply onUi_Some in S3 as (_ & -> & _). }
  assert (cancelledPending s4 /\ progressMessage (ui s4) = progressMessage (ui s3))
    as [H4 Hmsg4].
  { apply (exec_invariant_on
             (fun e => e <> EvConvert /\ isSettled e = false)
             (fun s4 => cancelledPending s4 /\
                        progressMessage (ui s4) = progressMessage (ui s3)))
      with (evs := after) (s := s3); [| done | done | done].
    intros e0 sa sb [Hnc Hns] [Hsa Hma] Hstep.
    destruct (cancelledPending_step e0 sa sb Hsa Hnc Hstep) as [Hmb Hsb].
    split; [| congruence]. destruct e0; try done. by destruct Hsb. }
  assert (e <> EvConvert) as Hne by (by destruct e).
  destruct (cancelledPending_step e s4 s' H4 Hne S5) as [_ H5].
  destruct H4 as (call & _ & Hst & _ & Hr & Hbr & Hp).
  exists s2, s4.
  assert (inFlight s' = [] /\ ui s' = ui s4) as [Hfl' Hui'] by (by destruct e).
  rewrite Hui'. do 2 (split; [done |]). repeat split; try done. congruence.
Qed.

(** In particular, a run on its own that is cancelled before any progress
    callback ends idle, with neither bytes nor error. *)
Lemma cancelled_before_progress_discarded (s s' : Sys) (e : Event) :
  inFlight s = [] ->
  isSettled e = true ->
  exec [EvConvert; EvCancel; e] s = Some s' ->
  inFlight s' = [] /\
  status (ui s') = ProcessingStatus.idle /\
  cleared (ui s') /\
  progress (ui s') = 0%Q.
Proof.
  intros Hq Hsettle Hexec.
  destruct (cancelled_run_discarded_unless_restarted s s' [] [] e Hq)
    as (s2 & s4 & E2 & E4 & Hui & Hfl & Hst & Hr & Hb & Hp & _); try done.
  cbn [exec app] in E2, E4.
  destruct (step EvConvert s) as [s1|] eqn:S1; [| done]. simplify_eq.
  destruct (step EvCancel s2) as [s3|] eqn:S3; [| done]. simplify_eq.
  pose proof (convert_from_quiet _ _ Hq S1) as H1.
  destruct (runningAlone_cancel _ _ H1 S3) as [_ He].
  unfold cleared. repeat split; try done. rewrite Hui. exact He.
Qed.

(** ** Names of the downloads *)

Lemma extChars_dot (a b : string) : JS.extChars (a ++ String "." b) = false.
Proof.
  induction a as [|c a IH]; [reflexivity |].
  simpl in *. rewrite IH. apply andb_false_r.
Qed.

Lemma stripExtension_cons (c : ascii) (s : string) :
  JS.stripExtension (String c s) =
    if Ascii.eqb c "." && JS.extBody s then EmptyString
    else String c (JS.stripExtension s).
Proof. reflexivity. Qed.

(** A name [base.ext] loses its last dot and what follows it. *)
Lemma stripExtension_ext (base ext : string) :
  JS.extBody ext = true -> JS.stripExtension (base ++ "." ++ ext) = base.
Proof.
  intros Hext. change ("." ++ ext) with (String "." ext).
  induction base as [|c base IH].
  - change ("" ++ String "." ext) with (String "." ext).
    rewrite stripExtension_cons, Hext. reflexivity.
  - change (String c base ++ String "." ext) with (String c (base ++ String "." ext)).
    rewrite stripExtension_cons, IH.
    replace (JS.extBody (base ++ String "." ext)) with false.
    + by rewrite andb_false_r.
    + symmetry. destruct base; [reflexivity |]. apply (extChars_dot (String _ _)).
Qed.

(** A name without an extension (no dot is followed, up to the end, by one
    or more characters other than dot and slash) is left as it is. *)
Lemma stripExtension_none (n : string) :
  (forall base ext, n = base ++ "." ++ ext -> JS.extBody ext = false) ->
  JS.stripExtension n = n.
Proof.
  induction n as [|c n IH]; intros Hno; [reflexivity |].
  rewrite stripExtension_cons.
  destruct (Ascii.eqb c "." && JS.extBody n) eqn:E.
  - apply andb_true_iff in E as [Ec En]. apply Ascii.eqb_eq in Ec. subst c.
    rewrite (Hno "" n eq_refl) in En. discriminate.
  - f_equal. apply IH. intros base ext ->. apply (Hno (String c base) ext). reflexivity.
Qed.

(** C5: when a batch result is present, the download offers its archive
    under the name [images_<pdfCount>_pdfs.zip], with pdfCount the count the
    result reports; this is the result an uncancelled, successful batch call
    has just delivered. *)
Theorem c5_batch_download_filename :
  (forall st br,
     batchResult st = Some br ->
     batchDownload st =
       Some {| dlFile := zipBlob br;
               filename := "images_" ++ JS.showNat (pdfCount br) ++ "_pdfs.zip" |}) /\
  (forall st output br,
     cancelledRef st = false ->
     success output = true ->
     outResult output = Some br ->
     batchDownload (batchSettled (Resolved output) st) =
       Some {| dlFile := zipBlob br;
               filename := "images_" ++ JS.showNat (pdfCount br) ++ "_pdfs.zip" |}).
Proof.
  split.
  - intros st br H. unfold batchDownload. by rewrite H.
  - intros st output br Hc Hs Hr. unfold batchSettled, batchDownload.
    rewrite Hc, Hs, Hr. reflexivity.
Qed.

Lemma c5_batch_download_filename_witness :
  batchDownload (setBatchResult (Some threePdfs) initialState) =
    Some {| dlFile := zipBlob threePdfs; filename := "images_3_pdfs.zip" |}.
Proof.
  exact (proj1 c5_batch_download_filename
           (setBatchResult (Some threePdfs) initialState) threePdfs eq_refl).
Defined.

(** The name depends on the files only up to their order. *)
Lemma resultFilename_Permutation (l l' : list UploadedFile) :
  l ≡ₚ l' -> resultFilename l = resultFilename l'.
Proof.
  intros Hp. pose proof (Permutation_length Hp) as Hlen.
  destruct l as [|x [|y l]].
  - apply Permutation_nil_l in Hp. by subst.
  - apply Permutation_singleton_l in Hp. by subst.
  - destruct l' as [|x' [|y' l']]; try discriminate Hlen.
    unfold resultFilename. by rewrite Hlen.
Qed.

(** While a run is alone, what can happen besides a cancel request and the
    settlement leaves the call in flight and the name of the download as
    they are: reordering the tiles does not change it. *)
Lemma runningAlone_step_filename (e : Event) (s s' : Sys) :
  runningAlone s ->
  isCancel e = false -> isSettled e = false ->
  step e s = Some s' ->
  inFlight s' = inFlight s /\
  resultFilename (files (ui s')) = resultFilename (files (ui s)).
Proof.
  intros (call & Hfl & Hst & Hc & Hr & Hb & He) Hnc Hns H.
  destruct e; try discriminate; cbn [step] in H; try (processing_disables H Hst).
  - apply onUi_Some in H as (_ & -> & ->). unfold handleDragOver.
    repeat case_match; done.
  - apply step_dragEnd in H as (fs & Hp & -> & ->).
    split; [done |]. by apply resultFilename_Permutation.
  - unfold canConvert, isProcessing in H. rewrite Hst in H. cbn in H.
    rewrite andb_false_r in H. discriminate H.
  - destruct (inFlight s !! run); [| done]. simplify_eq.
    unfold onProgress. cbn [ui inFlight]. by case_match.
Qed.

(** In a successful single-document run started with no other call in
    flight and never cancelled, the PDF offered is the one produced from the
    files handed to the engine, under the name derived from those files. *)
Lemma isolated_single_run_download
    (s s' : Sys) (evs : list Event) (run : nat) (blob : Blob) :
  inFlight s = [] ->
  Forall (fun e => isCancel e = false /\ isSettled e = false) evs ->
  exec (EvConvert :: evs ++ [EvSingleSettled run (succeeded blob)])%list s = Some s' ->
  snd (handleConvert (ui s)) = Some (imagesToPDF (file <$> files (ui s)) (options (ui s))) /\
  resultDownload (ui s') =
    Some {| dlFile := blob; filename := resultFilename (files (ui s)) |}.
Proof.
  intros Hq Hevs Hexec. cbn [exec] in Hexec.
  destruct (step EvConvert s) as [s1|] eqn:S1; [| done].
  rewrite exec_app in Hexec. destruct (exec evs s1) as [s2|] eqn:E2; [| done].
  cbn [mbind option_bind exec] in Hexec.
  destruct (step _ s2) as [s3|] eqn:S3; [| done]. simplify_eq.
  pose proof (convert_from_quiet _ _ Hq S1) as H1.
  destruct (step_inFlight _ _ _ S1)
    as [(_ & _ & Hne) | [(_ & Hcan & Hui & Hfl) | (? & ? & Hs & _)]]; [done | | done].
  assert (files (ui s1) = files (ui s)) as Hfiles.
  { rewrite Hui. unfold handleConvert. repeat case_match; done. }
  assert (runningAlone s2 /\ inFlight s2 = inFlight s1 /\
          resultFilename (files (ui s2)) = resultFilename (files (ui s1)))
    as (H2 & Hfl2 & Hname).
  { apply (exec_invariant_on
             (fun e => isCancel e = false /\ isSettled e = false)
             (fun s2 => runningAlone s2 /\ inFlight s2 = inFlight s1 /\
                        resultFilename (files (ui s2)) = resultFilename (files (ui s1))))
      with (evs := evs) (s := s1); [| done | done | done].
    intros e sa sb [Hnc Hns] (Ha & Hfla & Hna) Hstep.
    destruct (runningAlone_step_filename e sa sb Ha Hnc Hns Hstep) as [Hflb Hnb].
    pose proof (runningAlone_step e sa sb Ha Hstep) as Hb.
    split; [by destruct e | split; congruence]. }
  cbn [step] in S3. rewrite Hfl2, Hfl, Hq in S3. cbn [app] in S3.
  destruct (snd (handleConvert (ui s))) as [call|] eqn:Ecall; [| by destruct run].
  destruct run; [| done]. cbn in S3.
  destruct call as [| fs o]; [done |]. simplify_eq.
  destruct H2 as (_ & _ & _ & Hc & _).
  split.
  - unfold canConvert in Hcan. apply andb_true_iff in Hcan as [Hlen _].
    assert (files (ui s) <> []) as Hne by (by destruct (files (ui s))).
    unfold handleConvert in Ecall |- *. apply length_ltb_1 in Hne. rewrite Hne in *.
    by destruct (batchMode (ui s) && _).
  - cbn [ui]. unfold resultDownload, singleSettled, succeeded. rewrite Hc. cbn.
    rewrite <- Hfiles, <- Hname. reflexivity.
Qed.

(** When a single-document result is present, the download offers that
    blob; with exactly one file in the list its name is the file's name with
    the extension replaced by [.pdf] ([.pdf] is appended to a name that has
    no extension), and otherwise it is [images_<N>_pages.pdf] with N the
    number of files in the list. *)
Lemma resultDownload_filename (st : State) (blob : Blob) :
  result st = Some blob ->
  exists btn,
    resultDownload st = Some btn /\
    dlFile btn = blob /\
    (forall f, files st = [f] ->
       filename btn = JS.stripExtension (name (file f)) ++ ".pdf") /\
    (forall f base ext,
       files st = [f] -> name (file f) = base ++ "." ++ ext ->
       JS.extBody ext = true ->
       filename btn = base ++ ".pdf") /\
    (forall f,
       files st = [f] ->
       (forall base ext,
          name (file f) = base ++ "." ++ ext -> JS.extBody ext = false) ->
       filename btn = name (file f) ++ ".pdf") /\
    (length (files st) <> 1%nat ->
       filename btn = "images_" ++ JS.showNat (length (files st)) ++ "_pages.pdf").
Proof.
  intros Hresult.
  unfold resultDownload. rewrite Hresult. eexists. split; [reflexivity |].
  cbn [dlFile filename]. split; [reflexivity |].
  split; [| split; [| split]].
  - intros f ->. reflexivity.
  - intros f base ext -> Hn Hext. cbn [resultFilename].
    by rewrite Hn, stripExtension_ext.
  - intros f -> Hno. cbn [resultFilename]. by rewrite stripExtension_none.
  - intros Hlen. destruct (files st) as [|f [|g fs]]; try reflexivity.
    by destruct Hlen.
Qed.

Example resultDownload_holiday :
  resultDownload
    (setResult (Some holidayPdf) (setFiles [uploaded "holiday"] initialState))
  = Some {| dlFile := holidayPdf; filename := "holiday.pdf" |}.
Proof. vm_compute. reflexivity. Qed.

Example resultFilename_three :
  resultFilename [uploaded "a"; uploaded "b"; uploaded "c"] = "images_3_pages.pdf".
Proof. vm_compute. reflexivity. Qed.

Example resultFilename_two_dots :
  resultFilename [uploaded "scan.v2"] = "scan.v2.pdf".
Proof. vm_compute. reflexivity. Qed.

(** ** Cancelling and converting again *)

Lemma cancelRestartSession_state :
  exists s3 s5,
    exec (take 3 cancelRestartSession) initialSys = Some s3 /\
    cancelledRef (ui s3) = true /\
    status (ui s3) = ProcessingStatus.idle /\
    canConvert (ui s3) = true /\
    inFlight s3 = [imagesToPDF [png "a"] (marginOptions 36)] /\
    exec cancelRestartSession initialSys = Some s5 /\
    cancelledRef (ui s5) = false /\
    inFlight s5 = [imagesToPDF [png "a"] (marginOptions 36);
                   imagesToPDF [png "a"] (marginOptions 72)].
Proof.
  do 2 eexists. split; [vm_compute; reflexivity |].
  do 4 (split; [vm_compute; reflexivity |]).
  split; [vm_compute; reflexivity |].
  split; vm_compute; reflexivity.
Qed.

(** C3 fails on the component at this input: the first run is cancelled
    before any progress callback, a second conversion is started before the
    first engine call settles, and when the cancelled call then resolves its
    PDF is stored as the result and offered for download, with status
    complete, while the second call is still in flight. *)
Theorem c3_cancelled_run_result_delivered_after_restart :
  exists s,
    exec (cancelRestartSession ++ [EvSingleSettled 0 (succeeded holidayPdf)])
      initialSys = Some s /\
    inFlight s = [imagesToPDF [png "a"] (marginOptions 72)] /\
    result (ui s) = Some holidayPdf /\
    status (ui s) = ProcessingStatus.complete /\
    resultDownload (ui s) = Some {| dlFile := holidayPdf; filename := "a.pdf" |}.
Proof.
  eexists. split; [vm_compute; reflexivity |].
  do 3 (split; [vm_compute; reflexivity |]).
  vm_compute; reflexivity.
Qed.

(** C4 fails on the component at this input.  The name of the download is
    computed from the file list at the time of rendering, not from the files
    the PDF was made of.  After a cancelled run and a restart, the cancelled
    call resolves and ends the processing state while the second call, made
    for the one file [a.png] and never cancelled, is still in flight; the
    file list can then be changed.  With a second file added, the PDF of the
    second call, made of one file, is offered as [images_2_pages.pdf], not
    as [a.pdf]; with the file removed, it is offered as
    [images_0_pages.pdf]. *)
Theorem c4_download_named_after_changed_file_list :
  (exists s,
     exec cancelRestartSession initialSys = Some s /\
     inFlight s = [imagesToPDF [png "a"] (marginOptions 36);
                   imagesToPDF [png "a"] (marginOptions 72)]) /\
  (exists s,
     exec (restartThenChange (EvFilesSelected [uploaded "b"])) initialSys = Some s /\
     inFlight s = [] /\
     cancelledRef (ui s) = false /\
     status (ui s) = ProcessingStatus.complete /\
     files (ui s) = [uploaded "a"; uploaded "b"] /\
     resultDownload (ui s) =
       Some {| dlFile := holidayPdf; filename := "images_2_pages.pdf" |}) /\
  (exists s,
     exec (restartThenChange (EvRemoveFile "id-a")) initialSys = Some s /\
     inFlight s = [] /\
     cancelledRef (ui s) = false /\
     status (ui s) = ProcessingStatus.complete /\
     files (ui s) = [] /\
     resultDownload (ui s) =
       Some {| dlFile := holidayPdf; filename := "images_0_pages.pdf" |}).
Proof.
  split; [| split].
  - eexists. split; vm_compute; reflexivity.
  - eexists. split; [vm_compute; reflexivity |].
    do 4 (split; [vm_compute; reflexivity |]).
    vm_compute; reflexivity.
  - eexists. split; [vm_compute; reflexivity |].
    do 4 (split; [vm_compute; reflexivity |]).
    vm_compute; reflexivity.
Qed.

(** C8 fails on the component at this input: after a cancelled run and a
    restart, the cancelled call resolves with a failure and the second call,
    never cancelled, resolves with a PDF; when that second run completes both
    an error message and a result are shown. *)
Theorem c8_result_and_error_after_restart :
  exists s,
    exec (cancelRestartSession ++
            [EvSingleSettled 0 (failed "Unsupported image format");
             EvSingleSettled 0 (succeeded holidayPdf)])
      initialSys = Some s /\
    inFlight s = [] /\
    cancelledRef (ui s) = false /\
    result (ui s) = Some holidayPdf /\
    error (ui s) = Some "Unsupported image format" /\
    errorAlert (ui s) = Some "Unsupported image format" /\
    status (ui s) = ProcessingStatus.complete /\
    ~ exactlyOneSide (ui s).
Proof.
  eexists. split; [vm_compute; reflexivity |].
  do 6 (split; [vm_compute; reflexivity |]).
  intros [(_ & Hno & _) | (_ & Hno & _)]; apply Hno.
  - vm_compute. eauto.
  - left. vm_compute. eauto.
Qed.

(** C10 fails on the component at this input: after the cancellation has
    reset the progress to 0 and a second conversion has been started, a
    progress callback of the cancelled call sets the displayed fraction and
    message. *)
Theorem c10_cancelled_run_progress_shown_after_restart :
  exists s3 s,
    exec (take 3 cancelRestartSession) initialSys = Some s3 /\
    cancelledRef (ui s3) = true /\
    progress (ui s3) = 0%Q /\
    exec (cancelRestartSession ++
            [EvProgress 0 (1 # 2) (Some "Processing image 1 of 1")])
      initialSys = Some s /\
    inFlight s = [imagesToPDF [png "a"] (marginOptions 36);
                  imagesToPDF [png "a"] (marginOptions 72)] /\
    progress (ui s) = (1 # 2)%Q /\
    progressMessage (ui s) = "Processing image 1 of 1".
Proof.
  do 2 eexists. split; [vm_compute; reflexivity |].
  do 2 (split; [vm_compute; reflexivity |]).
  split; [vm_compute; reflexivity |].
  split; [vm_compute; reflexivity |].
  split; vm_compute; reflexivity.
Qed.

(** * Further properties *)

(** ** File sizes *)

Lemma tenths_quotient (b : Z) (d : positive) :
  tenths (inject_Z b / inject_Z (Zpos d)) = (20 * b + Zpos d) / (2 * Zpos d).
Proof.
  unfold tenths, Qfloor, Qdiv, Qmult, Qinv, Qplus, inject_Z. cbn [Qnum Qden].
  f_equal; lia.
Qed.

Lemma tenths_KB (b : Z) :
  tenths (inject_Z b / inject_Z 1024) = (10 * b + 512) / 1024.
Proof.
  rewrite tenths_quotient.
  replace (20 * b + 1024) with (2 * (10 * b + 512)) by lia.
  apply Z.div_mul_cancel_l; lia.
Qed.

Lemma tenths_MB (b : Z) :
  tenths (inject_Z b / inject_Z (1024 * 1024)) = (10 * b + 524288) / 1048576.
Proof.
  change (1024 * 1024) with 1048576. rewrite tenths_quotient.
  replace (20 * b + 1048576) with (2 * (10 * b + 524288)) by lia.
  change (2 * 1048576) with (2 * 1048576).
  apply Z.div_mul_cancel_l; lia.
Qed.

Lemma toFixed1_quotient (b : Z) (d : positive) :
  0 <= b ->
  toFixed1 (inject_Z b / inject_Z (Zpos d)) =
    showTenths (tenths (inject_Z b / inject_Z (Zpos d))).
Proof.
  intros Hb. unfold toFixed1.
  replace (Qle_bool 0 (inject_Z b / inject_Z (Z.pos d))) with true; [done |].
  symmetry. apply Qle_bool_iff. unfold Qle, Qdiv, Qmult, Qinv, inject_Z.
  cbn [Qnum Qden]. lia.
Qed.

(** The size shown is the exact one below 1 KiB and otherwise the nearest
    tenth of a KiB or MiB, a tie going up. *)
Theorem formatSize_nearest_tenth (bytes : Z) :
  (0 <= bytes < 1024 -> formatSize bytes = pretty bytes ++ " B") /\
  (1024 <= bytes < 1024 * 1024 ->
   exists n,
     formatSize bytes = showTenths n ++ " KB" /\
     10 <= n <= 10240 /\
     -512 <= 10 * bytes - 1024 * n < 512) /\
  (1024 * 1024 <= bytes ->
   exists n,
     formatSize bytes = showTenths n ++ " MB" /\
     10 <= n /\
     -524288 <= 10 * bytes - 1048576 * n < 524288).
Proof.
  unfold formatSize. split; [| split]; intros H.
  - replace (bytes <? 1024) with true by (symmetry; apply Z.ltb_lt; lia). done.
  - replace (bytes <? 1024) with false by (symmetry; apply Z.ltb_ge; lia).
    replace (bytes <? 1024 * 1024) with true by (symmetry; apply Z.ltb_lt; lia).
    exists ((10 * bytes + 512) / 1024).
    rewrite toFixed1_quotient, tenths_KB by lia. split; [done |].
    pose proof (Z.div_mod (10 * bytes + 512) 1024 ltac:(lia)) as Hdm.
    pose proof (Z.mod_pos_bound (10 * bytes + 512) 1024 ltac:(lia)) as Hm.
    lia.
  - replace (bytes <? 1024) with false by (symmetry; apply Z.ltb_ge; lia).
    replace (bytes <? 1024 * 1024) with false by (symmetry; apply Z.ltb_ge; lia).
    exists ((10 * bytes + 524288) / 1048576).
    rewrite <- tenths_MB. change (1024 * 1024) with 1048576.
    rewrite toFixed1_quotient by lia. split; [done |].
    change 1048576 with (1024 * 1024) at 2 4. rewrite tenths_MB.
    pose proof (Z.div_mod (10 * bytes + 524288) 1048576 ltac:(lia)) as Hdm.
    pose proof (Z.mod_pos_bound (10 * bytes + 524288) 1048576 ltac:(lia)) as Hm.
    lia.
Qed.

Lemma formatSize_nearest_tenth_witness :
  exists n,
    formatSize 1536 = showTenths n ++ " KB" /\
    10 <= n <= 10240 /\
    -512 <= 10 * 1536 - 1024 * n < 512.
Proof.
  apply (proj1 (proj2 (formatSize_nearest_tenth 1536))). lia.
Defined.

(** The last 51 sizes below 1 MiB round up to a figure with four digits
    before the dot: they are shown as 1024.0 KB. *)
Theorem formatSize_top_of_KB (bytes : Z) :
  1048525 <= bytes < 1048576 -> formatSize bytes = "1024.0 KB".
Proof.
  intros H. unfold formatSize.
  replace (bytes <? 1024) with false by (symmetry; apply Z.ltb_ge; lia).
  replace (bytes <? 1024 * 1024) with true by (symmetry; apply Z.ltb_lt; lia).
  rewrite toFixed1_quotient, tenths_KB by lia.
  replace ((10 * bytes + 512) / 1024) with 10240; [vm_compute; reflexivity |].
  apply (Z.div_unique _ _ _ (10 * bytes + 512 - 10485760)); lia.
Qed.

Lemma formatSize_top_of_KB_witness : formatSize 1048575 = "1024.0 KB".
Proof. apply formatSize_top_of_KB. lia. Defined.

(** ** Accepted file types *)

Lemma lowerChar_idemp (c : ascii) : lowerChar (lowerChar c) = lowerChar c.
Proof.
  destruct c as [[] [] [] [] [] [] [] []]; vm_compute; reflexivity.
Qed.

Lemma toLowerCase_idemp (s : string) : toLowerCase (toLowerCase s) = toLowerCase s.
Proof.
  induction s as [|c s IH]; [reflexivity |].
  cbn [toLowerCase]. by rewrite lowerChar_idemp, IH.
Qed.

Lemma includedb_subseteq (l1 l2 : list string) :
  includedb l1 l2 = true -> l1 ⊆ l2.
Proof.
  unfold includedb. rewrite forallb_forall. intros H x Hx.
  apply list_elem_of_In in Hx. apply H in Hx.
  apply existsb_exists in Hx as (y & Hy & Heq).
  apply String.eqb_eq in Heq. subst y. by apply list_elem_of_In.
Qed.

Lemma acceptedTypesFor_supported (t : string) :
  acceptedTypesFor t <> [] /\ acceptedTypesFor t ⊆ allAcceptedTypes.
Proof.
  unfold acceptedTypesFor.
  repeat case_match; (split; [done | by apply includedb_subseteq]).
Qed.

(** Whatever the [imageType] prop, the uploader is given a non-empty list
    that holds supported formats only, and two props that differ only in the
    case of their letters give the same list. *)
Theorem getAcceptedTypes_supported :
  (forall imageType,
     getAcceptedTypes imageType <> [] /\
     getAcceptedTypes imageType ⊆ allAcceptedTypes) /\
  (forall a b,
     toLowerCase a = toLowerCase b ->
     getAcceptedTypes (Some a) = getAcceptedTypes (Some b)).
Proof.
  split.
  - intros [[|c t]|].
    + split; [done | by apply includedb_subseteq].
    + apply acceptedTypesFor_supported.
    + split; [done | by apply includedb_subseteq].
  - intros [|c a] [|d b] H; try done.
    cbn [getAcceptedTypes]. by rewrite H.
Qed.

Lemma getAcceptedTypes_supported_witness :
  getAcceptedTypes (Some "JPEG") = getAcceptedTypes (Some "jpeg").
Proof. apply (proj2 getAcceptedTypes_supported). reflexivity. Defined.

(** ** The file list *)

Lemma moved_length (i j : nat) (l : list UploadedFile) :
  (i < length l)%nat ->
  length (take j (delete i l)) = (j `min` (length l - 1))%nat.
Proof. intros Hi. rewrite length_take, length_delete by (by apply lookup_lt_is_Some_2). lia. Qed.

Lemma moved_lookup (i j : nat) (l : list UploadedFile) (x : UploadedFile) :
  l !! i = Some x ->
  (take j (delete i l) ++ x :: drop j (delete i l))%list
    !! (j `min` (length l - 1))%nat = Some x.
Proof.
  intros E. pose proof (moved_length i j l (lookup_lt_Some _ _ _ E)) as Hlen.
  rewrite lookup_app_r by lia. rewrite Hlen, Nat.sub_diag. reflexivity.
Qed.

Lemma moved_others (i j : nat) (l : list UploadedFile) (x : UploadedFile) :
  l !! i = Some x ->
  delete (j `min` (length l - 1))%nat
    (take j (delete i l) ++ x :: drop j (delete i l))%list = delete i l.
Proof.
  intros E. pose proof (moved_length i j l (lookup_lt_Some _ _ _ E)) as Hlen.
  rewrite <- Hlen. rewrite delete_middle. apply take_drop.
Qed.

Lemma handleDragEnd_reorders (st : State) (d o : nat) :
  draggedIndex st = Some d -> dragOverIndex st = Some o -> d <> o ->
  handleDragEnd st =
    match definedFiles (reorder d o (files st)) with
    | Some newFiles =>
        Some (setDragOverIndex None (setDraggedIndex None (setFiles newFiles st)))
    | None => None
    end.
Proof.
  intros Hd Ho Hne. unfold handleDragEnd. rewrite Hd, Ho.
  by destruct (Nat.eqb_spec d o).
Qed.

Lemma handleDragEnd_stays (st : State) :
  draggedIndex st = None \/ dragOverIndex st = None \/
  draggedIndex st = dragOverIndex st ->
  handleDragEnd st = Some (setDragOverIndex None (setDraggedIndex None st)).
Proof.
  unfold handleDragEnd. intros [Hd | [Ho | Heq]].
  - by rewrite Hd.
  - rewrite Ho. by destruct (draggedIndex st).
  - rewrite Heq. destruct (dragOverIndex st) as [o|]; [| done].
    by rewrite Nat.eqb_refl.
Qed.

(** Dropping a dragged tile.  Whenever the component goes on after the drop,
    the files are the same up to their order and the drag state is cleared.
    When the tile is dropped on another position and the dragged index names
    a file, that file lands on the position (on the last one when the
    position is past the end) and the other files keep their relative order.
    When the dragged index is past the end of the list, as after files were
    removed during the drag, the list the handler sets is one entry longer,
    holds [undefined] at the drop position and the files in their order
    around it, and the component cannot be rendered.  With nothing dragged,
    nothing hovered or the tile dropped on itself the list stays as it is. *)
Theorem handleDragEnd_moves_one_file (st : State) :
  (forall st',
     handleDragEnd st = Some st' ->
     files st' ≡ₚ files st /\
     draggedIndex st' = None /\
     dragOverIndex st' = None) /\
  (forall d o,
     draggedIndex st = Some d -> dragOverIndex st = Some o -> d <> o ->
     match files st !! d with
     | Some f =>
         exists st',
           handleDragEnd st = Some st' /\
           Some <$> files st' = reorder d o (files st) /\
           files st' !! (o `min` (length (files st) - 1))%nat = Some f /\
           delete (o `min` (length (files st) - 1))%nat (files st') =
             delete d (files st)
     | None =>
         handleDragEnd st = None /\
         length (reorder d o (files st)) = S (length (files st)) /\
         reorder d o (files st) !! (o `min` length (files st))%nat = Some None /\
         delete (o `min` length (files st))%nat (reorder d o (files st)) =
           Some <$> files st
     end) /\
  (draggedIndex st = None \/ dragOverIndex st = None \/
   draggedIndex st = dragOverIndex st ->
   exists st', handleDragEnd st = Some st' /\ files st' = files st).
Proof.
  split; [| split].
  - intros st' H. apply handleDragEnd_Some in H as (fs & Hp & ->). done.
  - intros d o Hd Ho Hne. rewrite (handleDragEnd_reorders st d o Hd Ho Hne).
    rewrite definedFiles_reorder.
    destruct (files st !! d) as [f|] eqn:E.
    + eexists. split; [reflexivity |].
      cbn [files setFiles setDragOverIndex setDraggedIndex].
      split; [symmetry; by apply reorder_defined |].
      split; [by apply moved_lookup | by apply moved_others].
    + split; [reflexivity |]. rewrite (reorder_undefined _ _ _ E).
      assert (length (take o (Some <$> files st)) = (o `min` length (files st))%nat)
        as Hlen by (by rewrite length_take, length_fmap).
      split; [| split].
      * rewrite length_app. cbn [length].
        rewrite length_take, length_drop, length_fmap. lia.
      * rewrite lookup_app_r by lia. by rewrite Hlen, Nat.sub_diag.
      * rewrite <- Hlen. rewrite delete_middle. apply take_drop.
  - intros H. rewrite (handleDragEnd_stays st H). eexists. split; reflexivity.
Qed.

Lemma handleDragEnd_moves_one_file_witness :
  (exists st',
     handleDragEnd
       (setDragOverIndex (Some 0%nat) (setDraggedIndex (Some 2%nat) threeImages))
     = Some st' /\
     files st' = [uploaded "c"; uploaded "a"; uploaded "b"]) /\
  handleDragEnd
    (setDragOverIndex (Some 0%nat) (setDraggedIndex (Some 3%nat) threeImages))
  = None /\
  reorder 3 0 (files threeImages) =
    [None; Some (uploaded "a"); Some (uploaded "b"); Some (uploaded "c")].
Proof.
  split; [| split].
  - destruct (proj1 (proj2 (handleDragEnd_moves_one_file
                (setDragOverIndex (Some 0%nat)
                   (setDraggedIndex (Some 2%nat) threeImages))))
              2%nat 0%nat eq_refl eq_refl ltac:(discriminate))
      as (st' & Hst' & Hfiles & _).
    exists st'. split; [exact Hst' |].
    apply (inj (fmap Some)). rewrite Hfiles. vm_compute. reflexivity.
  - exact (proj1 (proj1 (proj2 (handleDragEnd_moves_one_file
                (setDragOverIndex (Some 0%nat)
                   (setDraggedIndex (Some 3%nat) threeImages))))
              3%nat 0%nat eq_refl eq_refl ltac:(discriminate))).
  - vm_compute. reflexivity.
Defined.

Lemma filter_id_ne (i : string) (l : list UploadedFile) :
  Forall (fun f => id f <> i) l ->
  filter (fun f => negb (String.eqb (id f) i)) l = l.
Proof.
  induction 1 as [|f l Hf _ IH]; [reflexivity |].
  rewrite filter_cons_True, IH; [done |].
  apply negb_prop_intro. intros Heq. apply Is_true_eq_true, String.eqb_eq in Heq. done.
Qed.

(** Removing a file by id takes out exactly the entries with that id: what
    stays is a sublist of the old list that holds every file with another
    id and none with this one; an id that is not in the list leaves the list
    as it is; and the single-document result is dropped in any case. *)
Theorem handleRemoveFile_exact (st : State) (i : string) :
  files (handleRemoveFile i st) `sublist_of` files st /\
  (forall f, f ∈ files (handleRemoveFile i st) <-> f ∈ files st /\ id f <> i) /\
  (Forall (fun f => id f <> i) (files st) ->
   files (handleRemoveFile i st) = files st) /\
  result (handleRemoveFile i st) = None.
Proof.
  unfold handleRemoveFile. cbn [files result setResult setFiles].
  split; [apply sublist_filter |]. split; [| split; [apply filter_id_ne | reflexivity]].
  intros f. rewrite list_elem_of_filter. split.
  - intros [Hne Hin]. split; [done |]. intros Heq.
    apply negb_prop_elim in Hne. apply Hne, Is_true_eq_left, String.eqb_eq, Heq.
  - intros [Hin Hne]. split; [| done].
    apply negb_prop_intro. intros Heq. apply Is_true_eq_true, String.eqb_eq in Heq. done.
Qed.

Lemma handleRemoveFile_exact_witness :
  files (handleRemoveFile "id-z" threeImages) = files threeImages.
Proof.
  apply (proj1 (proj2 (proj2 (handleRemoveFile_exact threeImages "id-z")))).
  repeat constructor; vm_compute; discriminate.
Defined.

(** Adding a file under a fresh id and removing that id again gives back
    the file list. *)
Theorem add_then_remove (st : State) (f : UploadedFile) :
  Forall (fun g => id g <> id f) (files st) ->
  files (handleRemoveFile (id f) (handleFilesSelected [f] st)) = files st.
Proof.
  intros Hold. unfold handleRemoveFile, handleFilesSelected.
  cbn [files setResult setFiles setError].
  rewrite filter_app, filter_id_ne by done.
  rewrite filter_cons_False, filter_nil; [apply app_nil_r |].
  intros Hn. apply negb_prop_elim in Hn. by apply Hn, Is_true_eq_left, String.eqb_eq.
Qed.

Lemma add_then_remove_witness :
  files (handleRemoveFile "id-d" (handleFilesSelected [uploaded "d"] threeImages))
  = files threeImages.
Proof.
  apply (add_then_remove threeImages (uploaded "d")).
  repeat constructor; vm_compute; discriminate.
Defined.

(** ** A whole drag *)

Lemma last_filter_cons (d i : nat) (l : list nat) :
  last (filter (fun j => j <> d) (i :: l)) =
    match last (filter (fun j => j <> d) l) with
    | Some o => Some o
    | None => if decide (i <> d) then Some i else None
    end.
Proof.
  rewrite filter_cons. case_decide; [| by destruct (last _)].
  rewrite last_cons. by destruct (last _).
Qed.

(** Hovering: only rendered tiles are hovered, the file list stays, and the
    drop position is the last hovered tile other than the dragged one, if
    any. *)
Lemma exec_hovers (d : nat) (hovers : list nat) :
  forall s s',
    draggedIndex (ui s) = Some d ->
    exec (EvDragOver <$> hovers) s = Some s' ->
    Forall (fun i => (i < length (files (ui s)))%nat) hovers /\
    files (ui s') = files (ui s) /\
    inFlight s' = inFlight s /\
    draggedIndex (ui s') = Some d /\
    dragOverIndex (ui s') =
      match last (filter (fun j => j <> d) hovers) with
      | Some o => Some o
      | None => dragOverIndex (ui s)
      end.
Proof.
  induction hovers as [|i hovers IH]; intros s s' Hd Hexec.
  - cbn in Hexec. by simplify_eq.
  - cbn [fmap list_fmap exec] in Hexec.
    destruct (step (EvDragOver i) s) as [s1|] eqn:E; [| done].
    cbn [step] in E. apply onUi_Some in E as (Hi & Hui & Hfl).
    apply Nat.ltb_lt in Hi.
    assert (files (ui s1) = files (ui s) /\ draggedIndex (ui s1) = Some d /\
            dragOverIndex (ui s1) =
              if decide (i <> d) then Some i else dragOverIndex (ui s))
      as (Hf1 & Hd1 & Ho1).
    { rewrite Hui. unfold handleDragOver. rewrite Hd.
      destruct (Nat.eqb_spec d i) as [-> | Hne]; cbn.
      - by rewrite decide_False by auto.
      - by rewrite decide_True by auto. }
    destruct (IH s1 s' Hd1 Hexec) as (Hall & Hf & Hfl' & Hd' & Ho').
    rewrite Hf1 in Hall.
    rewrite Hf, Hfl', Hd', Ho', Hf1, Hfl, Ho1, last_filter_cons.
    split; [by constructor |].
    repeat split; try done. destruct (last _); [done | by case_decide].
Qed.

(** The list after the drop of a tile that exists: the two splices with the
    recorded position when it differs from the tile's own, the same list
    otherwise. *)
Lemma dragEnd_files (st st' : State) (d : nat) :
  draggedIndex st = Some d -> (d < length (files st))%nat ->
  handleDragEnd st = Some st' ->
  match dragOverIndex st with
  | Some o =>
      if decide (o = d) then files st' = files st
      else Some <$> files st' = reorder d o (files st)
  | None => files st' = files st
  end.
Proof.
  intros Hd Hlt H. destruct (dragOverIndex st) as [o|] eqn:Ho.
  - case_decide as Hod.
    + subst o. rewrite handleDragEnd_stays in H by (right; right; congruence).
      by simplify_eq.
    + rewrite (handleDragEnd_reorders st d o Hd Ho) in H by auto.
      rewrite definedFiles_reorder in H.
      destruct (lookup_lt_is_Some_2 _ _ Hlt) as [x E]. rewrite E in H.
      simplify_eq. cbn [files setFiles setDragOverIndex setDraggedIndex].
      symmetry. by apply reorder_defined.
  - rewrite handleDragEnd_stays in H by auto. by simplify_eq.
Qed.

(** A whole drag: start on tile [d], any hovering, drop.  The file of tile
    [d] moves to the last tile hovered other than [d] itself, the other
    files keeping their order; hovering back over [d] does not undo the
    choice.  When no other tile is hovered, the position used is the one
    still recorded from an earlier drag that had no drag end, which the
    drag start does not reset: the file moves there, and with none recorded,
    or [d] itself, the list stays as it is.  In every case the files are
    the same up to order, the drag state is cleared and the calls in flight
    are untouched. *)
Theorem drag_lands_on_last_hovered (s s' : Sys) (d : nat) (hovers : list nat) :
  exec (EvDragStart d :: (EvDragOver <$> hovers) ++ [EvDragEnd])%list s = Some s' ->
  (forall o,
     last (filter (fun j => j <> d) hovers) = Some o ->
     Some <$> files (ui s') = reorder d o (files (ui s)) /\
     files (ui s') !! o = files (ui s) !! d /\
     delete o (files (ui s')) = delete d (files (ui s))) /\
  (last (filter (fun j => j <> d) hovers) = None ->
   match dragOverIndex (ui s) with
   | Some o =>
       if decide (o = d) then files (ui s') = files (ui s)
       else Some <$> files (ui s') = reorder d o (files (ui s))
   | None => files (ui s') = files (ui s)
   end) /\
  files (ui s') ≡ₚ files (ui s) /\
  draggedIndex (ui s') = None /\
  dragOverIndex (ui s') = None /\
  inFlight s' = inFlight s.
Proof.
  intros Hexec. cbn [exec] in Hexec.
  destruct (step (EvDragStart d) s) as [s1|] eqn:E1; [| done].
  rewrite exec_app in Hexec.
  destruct (exec (EvDragOver <$> hovers) s1) as [s2|] eqn:E2; [| done].
  cbn [mbind option_bind exec] in Hexec.
  destruct (step EvDragEnd s2) as [s3|] eqn:E3; [| done]. simplify_eq.
  cbn [step] in E1.
  apply onUi_Some in E1 as (Hen & Hui1 & Hfl1).
  apply andb_true_iff in Hen as [_ Hlt]. apply Nat.ltb_lt in Hlt.
  assert (draggedIndex (ui s1) = Some d /\ files (ui s1) = files (ui s) /\
          dragOverIndex (ui s1) = dragOverIndex (ui s)) as (Hd1 & Hf1 & Ho1).
  { by rewrite Hui1. }
  destruct (exec_hovers d hovers s1 s2 Hd1 E2) as (Hall & Hf2 & Hfl2 & Hd2 & Ho2).
  rewrite Hf1 in Hall, Hf2. rewrite Ho1 in Ho2.
  cbn [step] in E3.
  destruct (handleDragEnd (ui s2)) as [st3|] eqn:E; [| done]. simplify_eq.
  cbn [ui inFlight].
  pose proof (handleDragEnd_Some _ _ E) as (fs & Hperm & Hui3).
  assert (d < length (files (ui s2)))%nat as Hlt2 by (by rewrite Hf2).
  pose proof (dragEnd_files _ _ d Hd2 Hlt2 E) as Hfiles.
  rewrite Ho2, Hf2 in Hfiles.
  split; [| split; [| split]].
  - intros o El. rewrite El in Hfiles.
    assert (o <> d /\ o < length (files (ui s)))%nat as [Hne Ho].
    { apply last_Some in El as [l' El].
      assert (o ∈ filter (fun j => j <> d) hovers) as Hin
        by (rewrite El; apply elem_of_app; right; apply list_elem_of_here).
      apply list_elem_of_filter in Hin as [? Hin]. split; [done |].
      rewrite Forall_forall in Hall. by apply Hall. }
    rewrite decide_False in Hfiles by done.
    split; [exact Hfiles |].
    destruct (lookup_lt_is_Some_2 _ _ Hlt) as [x Ex].
    rewrite (reorder_defined _ _ _ _ Ex) in Hfiles.
    apply (inj (fmap Some)) in Hfiles. rewrite Hfiles, Ex.
    pose proof (moved_lookup d o _ _ Ex) as Hat.
    pose proof (moved_others d o _ _ Ex) as Hrest.
    replace (o `min` (length (files (ui s)) - 1))%nat with o in Hat, Hrest by lia.
    done.
  - intros El. by rewrite El in Hfiles.
  - rewrite Hui3. cbn. by rewrite Hperm, Hf2.
  - rewrite Hui3, Hfl2, Hfl1. done.
Qed.

Lemma drag_lands_on_last_hovered_witness :
  exists s',
    exec [EvDragStart 2%nat; EvDragOver 1%nat; EvDragOver 0%nat; EvDragOver 2%nat;
          EvDragEnd]
      {| ui := threeImages; inFlight := [] |} = Some s' /\
    files (ui s') = [uploaded "c"; uploaded "a"; uploaded "b"].
Proof.
  destruct (exec [EvDragStart 2%nat; EvDragOver 1%nat; EvDragOver 0%nat;
                  EvDragOver 2%nat; EvDragEnd]
              {| ui := threeImages; inFlight := [] |}) as [s'|] eqn:E;
    [| vm_compute in E; discriminate E].
  exists s'. split; [reflexivity |].
  destruct (proj1 (drag_lands_on_last_hovered
                     {| ui := threeImages; inFlight := [] |} s' 2%nat
                     [1%nat; 0%nat; 2%nat] E) 0%nat eq_refl) as (Hfiles & _).
  apply (inj (fmap Some)). rewrite Hfiles. vm_compute. reflexivity.
Defined.

(** An unfinished drag leaves its drop position behind: a later drag with
    nothing hovered moves its tile there. *)
Example stale_drop_position :
  exists s',
    exec [EvDragStart 0%nat; EvDragOver 1%nat; EvDragStart 2%nat; EvDragEnd]
      {| ui := threeImages; inFlight := [] |} = Some s' /\
    files (ui s') = [uploaded "a"; uploaded "c"; uploaded "b"].
Proof. eexists. split; vm_compute; reflexivity. Qed.

(** ** The SVG quality option *)

Lemma endsWith_spec (s suffix : string) :
  endsWith s suffix = true <-> exists base, s = base ++ suffix.
Proof.
  induction s as [|c s IH]; cbn [endsWith].
  - rewrite orb_false_r, String.eqb_eq. split.
    + intros <-. by exists "".
    + intros ([|? ?] & H); [done | discriminate H].
  - rewrite orb_true_iff, String.eqb_eq, IH. split.
    + intros [<- | (base & ->)]; [by exists "" | by exists (String c base)].
    + intros ([|c' base] & H); [left; exact H |].
      right. exists base. by injection H.
Qed.

(** The SVG quality option is rendered exactly when a file is loaded and
    either the tool was given the type [svg] in lower case, or some file has
    a name ending in [.svg] in any letter case, or the MIME type
    [image/svg+xml]; adding files never hides it. *)
Theorem showSvgQuality_spec (imageType : option string) (st : State) :
  (showSvgQuality imageType st = true <->
   files st <> [] /\
   (imageType = Some "svg" \/
    exists f, f ∈ files st /\
      ((exists base, toLowerCase (name (file f)) = base ++ ".svg") \/
       type (file f) = "image/svg+xml"))) /\
  (forall new,
     showSvgQuality imageType st = true ->
     showSvgQuality imageType (handleFilesSelected new st) = true).
Proof.
  assert (forall l, existsb isSvgFile l = true <->
            exists f, f ∈ l /\
              ((exists base, toLowerCase (name (file f)) = base ++ ".svg") \/
               type (file f) = "image/svg+xml")) as Hex.
  { intros l. rewrite existsb_exists. unfold isSvgFile.
    setoid_rewrite orb_true_iff. setoid_rewrite endsWith_spec.
    setoid_rewrite String.eqb_eq. setoid_rewrite list_elem_of_In. done. }
  split.
  - unfold showSvgQuality. rewrite andb_true_iff, orb_true_iff, Hex.
    assert ((1 <=? length (files st))%nat = true <-> files st <> []) as ->
      by (destruct (files st); cbn; split; done).
    assert (match imageType with Some t => String.eqb t "svg" | None => false end = true
            <-> imageType = Some "svg") as ->.
    { destruct imageType as [t|]; [| split; done].
      rewrite String.eqb_eq. split; [by intros -> | by intros [= ->]]. }
    done.
  - intros new. unfold showSvgQuality, handleFilesSelected.
    cbn [files setResult setError setFiles].
    rewrite !andb_true_iff, !orb_true_iff, length_app, existsb_app, orb_true_iff.
    intros [Hlen Hor]. split; [| tauto].
    apply Nat.leb_le in Hlen. apply Nat.leb_le. lia.
Qed.

Lemma showSvgQuality_spec_witness :
  showSvgQuality None
    (setFiles [{| id := "id-logo";
                  file := {| name := "Logo.SVG"; type := ""; size := 10 |};
                  preview := None |}] initialState) = true.
Proof.
  apply (proj1 (showSvgQuality_spec None _)). split; [discriminate |].
  right. eexists. split; [apply list_elem_of_here |]. left. by exists "logo".
Defined.

(** ** Invariants of the component *)

Lemma canConvert_files (st : State) : canConvert st = true -> files st <> [].
Proof.
  unfold canConvert. intros H. apply andb_true_iff in H as [Hlen _].
  by destruct (files st).
Qed.

Lemma step_processingInv (e : Event) (s s' : Sys) :
  processingInv s -> step e s = Some s' -> processingInv s'.
Proof.
  intros [Hup Hproc] H. unfold processingInv.
  destruct e; cbn [step] in H;
    try (apply onUi_Some in H as (_ & -> & ->); unfold_handlers;
         repeat case_match; done).
  - apply step_dragEnd in H as (fs & _ & -> & ->). done.
  - destruct (canConvert (ui s)) eqn:Hcan; [| done].
    apply canConvert_files in Hcan.
    destruct (handleConvert_started _ Hcan) as (call & Hcall & Hst).
    destruct (handleConvert (ui s)) as [st' c]. cbn [fst snd] in *. simplify_eq.
    cbn. split; [done |]. intros _. split; [done |]. by destruct (inFlight s).
  - destruct (inFlight s !! run); [| done]. simplify_eq. cbn [ui inFlight].
    unfold onProgress. by case_match.
  - destruct (inFlight s !! run) as [[]|]; try done. simplify_eq. cbn [ui inFlight].
    unfold batchSettled, catchClause.
    destruct (cancelledRef (ui s)) eqn:Hc; repeat case_match; cbn;
      try done; split; try done; intros Hp; destruct (Hproc Hp); congruence.
  - destruct (inFlight s !! run) as [[]|]; try done. simplify_eq. cbn [ui inFlight].
    unfold singleSettled, catchClause.
    destruct (cancelledRef (ui s)) eqn:Hc; repeat case_match; cbn;
      try done; split; try done; intros Hp; destruct (Hproc Hp); congruence.
Qed.

(** In every state the component can reach, the progress panel with its
    cancel button is shown only while an engine call is in flight and the
    cancellation flag is clear; the status is never [uploading]. *)
Theorem processing_has_call_in_flight (s : Sys) :
  reachable s ->
  status (ui s) <> ProcessingStatus.uploading /\
  (isProcessing (ui s) = true ->
   status (ui s) = ProcessingStatus.processing /\
   cancelledRef (ui s) = false /\
   inFlight s <> []).
Proof.
  intros Hreach.
  assert (processingInv s) as [Hup Hproc].
  { revert s Hreach. apply reachable_invariant; [by split |].
    intros e s s'. apply step_processingInv. }
  split; [exact Hup |]. unfold isProcessing. intros Hp.
  destruct (status (ui s)) eqn:Hst; try done. auto.
Qed.

Lemma processing_has_call_in_flight_witness :
  exists s,
    exec [EvFilesSelected [uploaded "a"]; EvConvert] initialSys = Some s /\
    inFlight s <> [].
Proof.
  eexists. split; [vm_compute; reflexivity |].
  refine (proj2 (proj2 (proj2 (processing_has_call_in_flight _ _) _))).
  - exists [EvFilesSelected [uploaded "a"]; EvConvert]. vm_compute. reflexivity.
  - vm_compute. reflexivity.
Defined.

Lemma ceilDiv_bounds (n g : Z) : 1 <= n -> 1 <= g -> 1 <= JS.ceilDiv n g <= n.
Proof.
  intros Hn Hg. destruct g as [|g|g]; try lia. rewrite ceilDiv_pos. split.
  - apply Z.div_le_lower_bound; lia.
  - apply Z.lt_succ_r, Z.div_lt_upper_bound; nia.
Qed.

(** In every state the component can reach the stored group size is at
    least 1, so the hint never divides by zero: with files loaded it
    announces at least one document and at most one per file. *)
Theorem batchModeHint_bounds (s : Sys) :
  reachable s ->
  1 <= imagesPerPdf (ui s) /\
  (files (ui s) <> [] ->
   1 <= batchModeHint (ui s) <= Z.of_nat (length (files (ui s)))).
Proof.
  intros Hreach.
  assert (groupSizeInv s) as [Hg _].
  { revert s Hreach. apply reachable_invariant.
    - split; [simpl; lia | constructor].
    - intros e s s'. apply step_groupSizeInv. }
  split; [exact Hg |]. intros Hne. apply ceilDiv_bounds; [| exact Hg].
  destruct (files (ui s)); [done | cbn [length]; lia].
Qed.

Lemma batchModeHint_bounds_witness :
  exists s,
    exec [EvFilesSelected [uploaded "a"; uploaded "b"]] initialSys = Some s /\
    1 <= batchModeHint (ui s) <= 2.
Proof.
  eexists. split; [vm_compute; reflexivity |].
  refine (proj2 (batchModeHint_bounds _ _) _).
  - exists [EvFilesSelected [uploaded "a"; uploaded "b"]]. vm_compute. reflexivity.
  - discriminate.
Defined.

Lemma cancelCount_cons (e : Event) (evs : list Event) :
  cancelCount (e :: evs) = ((if isCancel e then 1 else 0) + cancelCount evs)%nat.
Proof.
  unfold cancelCount. rewrite filter_cons. destruct (isCancel e); by case_decide.
Qed.

Lemma idleWeight_le_1 (st : State) : (idleWeight st <= 1)%nat.
Proof. unfold idleWeight. case_match; lia. Qed.

(** A step adds a call only when it hides the idle state (Convert), and
    only a cancel request brings the idle state back without a settlement. *)
Lemma step_weight (e : Event) (s s' : Sys) :
  step e s = Some s' ->
  (length (inFlight s') + idleWeight (ui s')
   <= length (inFlight s) + idleWeight (ui s) + (if isCancel e then 1 else 0))%nat.
Proof.
  intros H. pose proof (idleWeight_le_1 (ui s')) as Hw'.
  destruct e; cbn [isCancel];
    try (cbn [step] in H; apply onUi_Some in H as (Hen & Hui & ->);
         assert (status (ui s') = status (ui s)) as Hst
           by (rewrite Hui; unfold_handlers; repeat case_match; done);
         unfold idleWeight, isProcessing; rewrite Hst; lia).
  - (* clear all *) cbn [step] in H.
    apply onUi_Some in H as (Hen & -> & ->).
    unfold optionsPanel in Hen. apply andb_true_iff in Hen as [_ Hen].
    unfold idleWeight.
    destruct (isProcessing (ui s)) eqn:Ep; [discriminate Hen |].
    destruct (isProcessing (handleClearAll (ui s))); lia.
  - (* drag end *)
    apply step_dragEnd in H as (fs & _ & Hui & ->).
    unfold idleWeight, isProcessing. rewrite Hui. cbn. lia.
  - (* convert *)
    destruct (step_inFlight _ _ _ H)
      as [(_ & _ & Hne) | [(_ & Hcan & Hui & Hfl) | (? & ? & Hs & _)]]; [done | | done].
    pose proof (canConvert_files _ Hcan) as Hne.
    destruct (handleConvert_started _ Hne) as (call & Hcall & Hst).
    rewrite Hfl, Hui, Hcall, Hst, length_app.
    unfold canConvert in Hcan. apply andb_true_iff in Hcan as [_ Hcan].
    unfold idleWeight at 2.
    destruct (isProcessing (ui s)) eqn:Ep; [discriminate Hcan |]. cbn. lia.
  - (* cancel *) cbn [step] in H.
    apply onUi_Some in H as (Hen & -> & ->).
    pose proof (idleWeight_le_1 (handleCancel (ui s))). lia.
  - (* progress *) cbn [step] in H.
    destruct (inFlight s !! run); [| done]. simplify_eq. cbn [ui inFlight].
    assert (status (onProgress prog msg (ui s)) = status (ui s)) as Hst
      by (unfold onProgress; by case_match).
    unfold idleWeight, isProcessing. rewrite Hst. lia.
  - (* batch call settled *) cbn [step] in H.
    destruct (inFlight s !! run) as [[]|] eqn:E; try done. simplify_eq.
    cbn [ui inFlight] in *. pose proof (lookup_lt_Some _ _ _ E).
    rewrite length_delete by eauto. lia.
  - (* single call settled *) cbn [step] in H.
    destruct (inFlight s !! run) as [[]|] eqn:E; try done. simplify_eq.
    cbn [ui inFlight] in *. pose proof (lookup_lt_Some _ _ _ E).
    rewrite length_delete by eauto. lia.
Qed.

Lemma exec_weight (evs : list Event) (s s' : Sys) :
  exec evs s = Some s' ->
  (length (inFlight s') + idleWeight (ui s')
   <= length (inFlight s) + idleWeight (ui s) + cancelCount evs)%nat.
Proof.
  revert s. induction evs as [|e evs IH]; intros s Hexec.
  - cbn in Hexec. simplify_eq. unfold cancelCount. cbn. lia.
  - cbn [exec] in Hexec. destruct (step e s) as [s1|] eqn:E; [| done].
    apply IH in Hexec. apply step_weight in E. rewrite cancelCount_cons. lia.
Qed.

(** The engine calls in flight never outnumber the cancel requests made so
    far by more than one, and by none once the progress panel is hidden:
    without a cancellation at most one call is in flight, and none is left
    when the run is over. *)
Theorem inFlight_bounded_by_cancels (evs : list Event) (s : Sys) :
  exec evs initialSys = Some s ->
  (length (inFlight s) <= cancelCount evs + 1)%nat /\
  (isProcessing (ui s) = false -> (length (inFlight s) <= cancelCount evs)%nat).
Proof.
  intros Hexec. apply exec_weight in Hexec. cbn in Hexec.
  split; [lia |]. intros Hp. unfold idleWeight in Hexec. rewrite Hp in Hexec. lia.
Qed.

Lemma inFlight_bounded_by_cancels_witness :
  exists s,
    exec cancelRestartSession initialSys = Some s /\
    (length (inFlight s) <= 2)%nat.
Proof.
  eexists. split; [vm_compute; reflexivity |].
  refine (proj1 (inFlight_bounded_by_cancels cancelRestartSession _ _)).
  vm_compute. reflexivity.
Defined.

(** ** Typing a group size *)

(** Typing the decimal form of an integer k into the images-per-PDF input
    stores k clamped to the range from 1 to the number of files: a value in
    that range is stored as typed, a larger one becomes the number of files,
    and zero or a negative one becomes 1. *)
Theorem typed_group_size_stored (st : State) (k : Z) :
  imagesPerPdf (handleImagesPerPdfChange (pretty k) st) =
    Z.max 1 (Z.min (Z.of_nat (length (files st))) k) /\
  (1 <= k <= Z.of_nat (length (files st)) ->
   imagesPerPdf (handleImagesPerPdfChange (pretty k) st) = k).
Proof.
  assert (imagesPerPdf (handleImagesPerPdfChange (pretty k) st) =
            Z.max 1 (Z.min (Z.of_nat (length (files st))) k)) as H.
  { unfold handleImagesPerPdfChange, clampImagesPerPdf.
    cbn [imagesPerPdf setImagesPerPdf]. rewrite parseInt_pretty. cbn [JS.numOr].
    destruct (Z.eqb_spec k 0); lia. }
  split; [exact H |]. intros Hk. rewrite H. lia.
Qed.

Lemma typed_group_size_stored_witness :
  imagesPerPdf (handleImagesPerPdfChange (pretty 2) threeImages) = 2.
Proof.
  apply (proj2 (typed_group_size_stored threeImages 2)). vm_compute. split; discriminate.
Defined.

(** ** What is removed from a file name *)

(** Removing the extension keeps a prefix of the name: what is cut off is
    either nothing or one final dot followed by one or more characters other
    than dot and slash. *)
Theorem stripExtension_cuts_one_suffix (s : string) :
  exists t,
    s = JS.stripExtension s ++ t /\
    (t = "" \/ exists ext, t = "." ++ ext /\ JS.extBody ext = true).
Proof.
  induction s as [|c s (t & Hs & Ht)].
  - exists "". split; [reflexivity | by left].
  - rewrite stripExtension_cons.
    destruct (Ascii.eqb c "." && JS.extBody s) eqn:E.
    + apply andb_true_iff in E as [Ec Eb]. apply Ascii.eqb_eq in Ec. subst c.
      exists (String "." s). split; [reflexivity |]. right. by exists s.
    + exists t. split; [| exact Ht].
      change (String c (JS.stripExtension s) ++ t)
        with (String c (JS.stripExtension s ++ t)).
      by rewrite <- Hs.
Qed.

(** ** Failures *)

(** [s || d] for a non-empty default: the string itself when it is present
    and non-empty, the default otherwise. *)
Lemma strOr_nonempty (s : option string) (d : string) :
  d <> "" ->
  JS.strOr s d <> "" /\
  (forall m, s = Some m -> m <> "" -> JS.strOr s d = m) /\
  (s = None \/ s = Some "" -> JS.strOr s d = d).
Proof.
  intros Hd. destruct s as [[|c s]|]; cbn; (split; [done |]); split.
  - by intros m [= <-] Hm.
  - done.
  - by intros m [= <-] _.
  - by intros [|].
  - done.
  - done.
Qed.

Lemma errorAlert_setError (m : string) (st : State) :
  m <> "" ->
  errorAlert (setStatus ProcessingStatus.error (setError (Some m) st)) = Some m.
Proof. intros Hm. unfold errorAlert. cbn. by destruct m. Qed.

(** When an engine call that was not cancelled resolves without both the
    success flag and a result, the component goes to status error and shows
    a non-empty message: the engine's own whenever the engine gives a
    non-empty one, and the fallback of that path when the engine gives no
    error or an empty message; no result is stored. *)
Theorem resolved_failure_shows_message (st : State) :
  cancelledRef st = false ->
  (forall output : ProcessOutput Blob,
     success output = false \/ outResult output = None ->
     let st' := singleSettled (Resolved output) st in
     exists m,
       m <> "" /\
       error st' = Some m /\ errorAlert st' = Some m /\
       status st' = ProcessingStatus.error /\
       result st' = result st /\
       (forall e, outError output = Some e -> message e <> "" -> m = message e) /\
       (outError output = None \/ message <$> outError output = Some "" ->
        m = "Failed to convert images to PDF.")) /\
  (forall output : ProcessOutput BatchExportResult,
     success output = false \/ outResult output = None ->
     let st' := batchSettled (Resolved output) st in
     exists m,
       m <> "" /\
       error st' = Some m /\ errorAlert st' = Some m /\
       status st' = ProcessingStatus.error /\
       batchResult st' = batchResult st /\
       (forall e, outError output = Some e -> message e <> "" -> m = message e) /\
       (outError output = None \/ message <$> outError output = Some "" ->
        m = "Failed to create batch PDFs.")).
Proof.
  intros Hc. split; intros output Hfail st'; subst st';
    unfold singleSettled, batchSettled; rewrite Hc.
  - destruct (strOr_nonempty (message <$> outError output)
                "Failed to convert images to PDF.") as (Hne & Hown & Hfb); [done |].
    exists (JS.strOr (message <$> outError output) "Failed to convert images to PDF.").
    assert (forall e, outError output = Some e -> message e <> "" ->
              JS.strOr (message <$> outError output)
                "Failed to convert images to PDF." = message e) as Hown'
      by (intros e He Hm; apply Hown; [by rewrite He | done]).
    assert (outError output = None \/ message <$> outError output = Some "" ->
              JS.strOr (message <$> outError output)
                "Failed to convert images to PDF." = "Failed to convert images to PDF.")
      as Hfb'
      by (intros [He | He]; apply Hfb; [left; by rewrite He | by right]).
    destruct (success output), (outResult output), Hfail; try done;
      (split; [exact Hne |]); rewrite errorAlert_setError by exact Hne; done.
  - destruct (strOr_nonempty (message <$> outError output)
                "Failed to create batch PDFs.") as (Hne & Hown & Hfb); [done |].
    exists (JS.strOr (message <$> outError output) "Failed to create batch PDFs.").
    assert (forall e, outError output = Some e -> message e <> "" ->
              JS.strOr (message <$> outError output)
                "Failed to create batch PDFs." = message e) as Hown'
      by (intros e He Hm; apply Hown; [by rewrite He | done]).
    assert (outError output = None \/ message <$> outError output = Some "" ->
              JS.strOr (message <$> outError output)
                "Failed to create batch PDFs." = "Failed to create batch PDFs.")
      as Hfb'
      by (intros [He | He]; apply Hfb; [left; by rewrite He | by right]).
    destruct (success output), (outResult output), Hfail; try done;
      (split; [exact Hne |]); rewrite errorAlert_setError by exact Hne; done.
Qed.

Lemma resolved_failure_shows_message_witness :
  errorAlert (singleSettled (failed "") (fst (handleConvert threeImages)))
    = Some "Failed to convert images to PDF." /\
  errorAlert (batchSettled (failed "Unsupported image format")
                (fst (handleConvert threeImages)))
    = Some "Unsupported image format".
Proof.
  split.
  - destruct (proj1 (resolved_failure_shows_message
                       (fst (handleConvert threeImages)) eq_refl)
                {| success := false; outResult := None;
                   outError := Some {| message := "" |} |}
                (or_introl eq_refl))
      as (m & _ & _ & Halert & _ & _ & _ & Hfb).
    rewrite Hfb in Halert by (by right). exact Halert.
  - destruct (proj2 (resolved_failure_shows_message
                       (fst (handleConvert threeImages)) eq_refl)
                {| success := false; outResult := None;
                   outError := Some {| message := "Unsupported image format" |} |}
                (or_introl eq_refl))
      as (m & _ & _ & Halert & _ & _ & Hown & _).
    pose proof (Hown _ eq_refl ltac:(discriminate)) as Hm. cbn in Hm.
    rewrite Hm in Halert. exact Halert.
Defined.

(** When an engine call that was not cancelled rejects, the component goes
    to status error in every case, but the alert is shown only if the message
    stored is non-empty: a thrown [Error] with an empty message leaves the
    component in status error with nothing displayed. *)
Theorem rejection_alert_needs_message (st : State) (err : Thrown) :
  cancelledRef st = false ->
  status (catchClause err st) = ProcessingStatus.error /\
  result (catchClause err st) = result st /\
  batchResult (catchClause err st) = batchResult st /\
  (errorAlert (catchClause err st) = None <-> err = ThrownError "").
Proof.
  intros Hc. unfold catchClause, errorAlert. rewrite Hc. cbn.
  do 3 (split; [reflexivity |]).
  destruct err as [[|c m]|]; cbn; split; intros H; try done.
Qed.

Lemma rejection_alert_needs_message_witness :
  errorAlert (catchClause (ThrownError "") (fst (handleConvert threeImages))) = None.
Proof.
  apply (proj2 (proj2 (proj2 (rejection_alert_needs_message
                                (fst (handleConvert threeImages))
                                (ThrownError "") eq_refl)))).
  reflexivity.
Defined.
